(** * Weekly import report (streamlit_app.py): a shallow embedding

    Python [str] values are lists of Unicode code points, [datetime.date]
    values are proleptic Gregorian ordinals ([date.toordinal]), a pandas
    DataFrame is a header (its column labels) with rows of named cells.
    Fallible code returns [option]: [None] is a raised exception. *)

From Stdlib Require Import String.
From stdpp Require Import base list gmap.
From Stdlib Require Import ZArith Ascii Lia Sorting.Permutation Sorting.Sorted.

Open Scope Z_scope.

(* ------------------------------------------------------------------ *)
(** ** Python strings *)

(** A Python [str]: its sequence of code points. *)
Definition pystr := list Z.

(** UTF-8 decoding, used only to write literals of the source as
    Rocq string literals (the source file is UTF-8). *)
Fixpoint utf8_decode (l : list Z) : list Z :=
  match l with
  | [] => []
  | b0 :: t =>
      if b0 <? 128 then b0 :: utf8_decode t
      else match t with
        | [] => []
        | b1 :: t1 =>
            if b0 <? 224 then (Z.land b0 31 * 64 + Z.land b1 63) :: utf8_decode t1
            else match t1 with
              | [] => []
              | b2 :: t2 =>
                  if b0 <? 240 then
                    (Z.land b0 15 * 4096 + Z.land b1 63 * 64 + Z.land b2 63)
                      :: utf8_decode t2
                  else match t2 with
                    | [] => []
                    | b3 :: t3 =>
                        (Z.land b0 7 * 262144 + Z.land b1 63 * 4096
                         + Z.land b2 63 * 64 + Z.land b3 63) :: utf8_decode t3
                    end
              end
        end
  end.

Definition u8 (s : String.string) : pystr :=
  utf8_decode (map (fun a => Z.of_nat (nat_of_ascii a)) (String.list_ascii_of_string s)).
Arguments u8 s%_string_scope.
Arguments u8 : simpl never.

(** [Py_UNICODE_ISSPACE]: the characters [str.strip()] removes and the
    regular expression class [\s] matches. *)
Definition is_space (c : Z) : bool :=
  ((9 <=? c) && (c <=? 13)) || ((28 <=? c) && (c <=? 32)) || (c =? 133)
  || (c =? 160) || (c =? 5760) || ((8192 <=? c) && (c <=? 8202))
  || (c =? 8232) || (c =? 8233) || (c =? 8239) || (c =? 8287) || (c =? 12288).

Fixpoint lstrip (s : pystr) : pystr :=
  match s with
  | [] => []
  | c :: t => if is_space c then lstrip t else s
  end.

(** [str.strip()] *)
Definition py_strip (s : pystr) : pystr := rev (lstrip (rev (lstrip s))).

(** [str.lower()] on one code point.  ASCII capitals, the Kelvin sign
    (U+212A, lower-cased to "k") and U+0130 (lower-cased to "i" followed
    by U+0307) are written out; the rest of the Unicode case table maps
    non-ASCII letters to non-ASCII letters, and is left as the identity
    here: none of those lower-cases to an ASCII string. *)
Definition lower_char (c : Z) : list Z :=
  if (65 <=? c) && (c <=? 90) then [c + 32]
  else if c =? 8490 then [107]
  else if c =? 304 then [105; 775]
  else [c].

Definition py_lower (s : pystr) : pystr := List.concat (map lower_char s).

Fixpoint py_startswith (s prefix : pystr) : bool :=
  match prefix, s with
  | [], _ => true
  | p :: ps, c :: cs => (p =? c) && py_startswith cs ps
  | _ :: _, [] => false
  end.

(** [str.replace(old, new)] for a one-character [old]. *)
Definition replace_char (old new : Z) (s : pystr) : pystr :=
  map (fun c => if c =? old then new else c) s.

Fixpoint pystr_eqb (a b : pystr) : bool :=
  match a, b with
  | [], [] => true
  | x :: xs, y :: ys => (x =? y) && pystr_eqb xs ys
  | _, _ => false
  end.

Fixpoint pystr_ltb (a b : pystr) : bool :=
  match a, b with
  | [], [] => false
  | [], _ :: _ => true
  | _ :: _, [] => false
  | x :: xs, y :: ys => (x <? y) || ((x =? y) && pystr_ltb xs ys)
  end.

(** [str(n)] for an [int] *)
Fixpoint digits_rev (fuel : nat) (n : Z) : list Z :=
  match fuel with
  | O => []
  | S f => (48 + n mod 10) :: (if n <? 10 then [] else digits_rev f (n / 10))
  end.

Definition py_str_int (n : Z) : pystr :=
  if n <? 0 then 45 :: rev (digits_rev (S (Z.to_nat (- n))) (- n))
  else rev (digits_rev (S (Z.to_nat n)) n).

(** ["%0wd" % n] for [n >= 0] *)
Definition zpad (w : nat) (n : Z) : pystr :=
  let s := py_str_int n in repeat 48 (w - List.length s)%nat ++ s.

Definition is_digit (c : Z) : bool := (48 <=? c) && (c <=? 57).

(* ------------------------------------------------------------------ *)
(** ** Dates ([datetime.date] as its ordinal) *)

Definition date := Z.

(** [date.min.toordinal()] and [date.max.toordinal()] *)
Definition MINORDINAL : Z := 1.
Definition MAXORDINAL : Z := 3652059.

Definition valid_date (d : date) : Prop := MINORDINAL <= d <= MAXORDINAL.

Definition is_leap (y : Z) : bool :=
  (y mod 4 =? 0) && (negb (y mod 100 =? 0) || (y mod 400 =? 0)).

Definition days_in_month (y m : Z) : Z :=
  match m with
  | 1 | 3 | 5 | 7 | 8 | 10 | 12 => 31
  | 4 | 6 | 9 | 11 => 30
  | 2 => if is_leap y then 29 else 28
  | _ => 0
  end.

Definition days_before_month_tbl (m : Z) : Z :=
  match m with
  | 1 => 0 | 2 => 31 | 3 => 59 | 4 => 90 | 5 => 120 | 6 => 151
  | 7 => 181 | 8 => 212 | 9 => 243 | 10 => 273 | 11 => 304 | 12 => 334
  | _ => 0
  end.

Definition days_before_year (y : Z) : Z :=
  let y1 := y - 1 in y1 * 365 + y1 / 4 - y1 / 100 + y1 / 400.

Definition days_before_month (y m : Z) : Z :=
  days_before_month_tbl m + (if (2 <? m) && is_leap y then 1 else 0).

(** [_ymd2ord] *)
Definition ymd2ord (y m d : Z) : date :=
  days_before_year y + days_before_month y m + d.

(** [date(y, m, d)]: [ValueError] outside the calendar *)
Definition mk_date (y m d : Z) : option date :=
  if (1 <=? y) && (y <=? 9999) && (1 <=? m) && (m <=? 12)
     && (1 <=? d) && (d <=? days_in_month y m)
  then Some (ymd2ord y m d) else None.

(** [_ord2ymd] *)
Definition ord2ymd (n0 : date) : Z * Z * Z :=
  let n := n0 - 1 in
  let n400 := n / 146097 in let n := n mod 146097 in
  let year := n400 * 400 + 1 in
  let n100 := n / 36524 in let n := n mod 36524 in
  let n4 := n / 1461 in let n := n mod 1461 in
  let n1 := n / 365 in let n := n mod 365 in
  let year := year + n100 * 100 + n4 * 4 + n1 in
  if (n1 =? 4) || (n100 =? 4) then (year - 1, 12, 31)
  else
    let leapyear := (n1 =? 3) && (negb (n4 =? 24) || (n100 =? 3)) in
    let month := Z.shiftr (n + 50) 5 in
    let preceding := days_before_month_tbl month
                     + (if (2 <? month) && leapyear then 1 else 0) in
    let '(month, preceding) :=
      if n <? preceding then
        (month - 1,
         preceding - (days_in_month (if leapyear then 4 else 1) (month - 1)))
      else (month, preceding) in
    (year, month, n - preceding + 1).

(** [date.weekday()]: Monday is 0 *)
Definition weekday (d : date) : Z := (d + 6) mod 7.

(** [date + timedelta(days=k)]: [OverflowError] outside [date.min, date.max] *)
Definition date_add (d : date) (k : Z) : option date :=
  let r := d + k in
  if (MINORDINAL <=? r) && (r <=? MAXORDINAL) then Some r else None.

(** [str(date)], i.e. [date.isoformat()]: ["%04d-%02d-%02d"] *)
Definition date_iso (d : date) : pystr :=
  let '(y, m, dd) := ord2ymd d in
  zpad 4 y ++ [45] ++ zpad 2 m ++ [45] ++ zpad 2 dd.

(** [date + relativedelta(weekday=MO(-1))]: dateutil computes
    [jumpdays = -((ret.weekday() - MO.weekday) % 7)] and adds it. *)
Definition add_relativedelta_MO_minus1 (d : date) : option date :=
  date_add d (- ((weekday d - 0) mod 7)).

(** [previous_week_window] (lines 53-60) *)
Definition previous_week_window (reference_date : date) : option (date * date) :=
  this_week_monday ← add_relativedelta_MO_minus1 reference_date;
  prev_monday ← date_add this_week_monday (- 7);
  prev_sunday ← date_add prev_monday 6;
  Some (prev_monday, prev_sunday).

(* ------------------------------------------------------------------ *)
(** ** DataFrame cells *)

(** The values an object column holds here: a [str] read from the CSV,
    a missing value ([NaN], what [read_csv] gives for an empty field), a
    [datetime.date], or [NaT]. *)
Inductive cell :=
  | CStr (s : pystr)
  | CNa
  | CDate (d : date)
  | CNaT.

(** [str(value)] *)
Definition py_str (c : cell) : pystr :=
  match c with
  | CStr s => s
  | CNa => u8 "nan"
  | CDate d => date_iso d
  | CNaT => u8 "NaT"
  end.

(** [pd.isna(value)] *)
Definition is_na (c : cell) : bool :=
  match c with CNa | CNaT => true | _ => false end.

Definition cell_eqb (a b : cell) : bool :=
  match a, b with
  | CStr x, CStr y => pystr_eqb x y
  | CDate x, CDate y => x =? y
  | _, _ => false
  end.

(* ------------------------------------------------------------------ *)
(** ** Configuration (lines 15-47) *)

Definition ALLOWED_IMPORTERS : list pystr :=
  [u8 "Andrea Sergi"; u8 "Enrico Radaelli"; u8 "Alessia Pellegrino"; u8 "Andrea Pedroli"].

Definition BUSINESS_LINE_MAP : list (pystr * pystr) :=
  [(u8 "individuals", u8 "Individual");
   (u8 "gp", u8 "Individual");
   (u8 "gp gruppi", u8 "Facility");
   (u8 "gipo", u8 "Facility");
   (u8 "dp phone", u8 "Facility");
   (u8 "clinic agenda", u8 "Facility")].

Definition IMPORTER_SHORT : list (pystr * pystr) :=
  [(u8 "Alessia Pellegrino", u8 "Alessia");
   (u8 "Andrea Sergi", u8 "Andrea");
   (u8 "Enrico Radaelli", u8 "Enrico");
   (u8 "Andrea Pedroli", u8 "Pedro")].

Definition KEEP_COLS : list pystr :=
  [u8 "Url"; u8 "Ticket Name"; u8 "Importer"; u8 "Import Type";
   u8 "Business Line"; u8 "Close Date"].

(** [dict.get(key)] on a dict literal without repeated keys *)
Fixpoint dict_get (d : list (pystr * pystr)) (k : pystr) : option pystr :=
  match d with
  | [] => None
  | (k', v) :: t => if pystr_eqb k k' then Some v else dict_get t k
  end.

Fixpoint dict_get_Z (d : list (pystr * Z)) (k : pystr) : option Z :=
  match d with
  | [] => None
  | (k', v) :: t => if pystr_eqb k k' then Some v else dict_get_Z t k
  end.

(** [business_line_cat] (lines 63-64) *)
Definition business_line_cat (raw_bl : cell) : pystr :=
  match dict_get BUSINESS_LINE_MAP (py_lower (py_strip (py_str raw_bl))) with
  | Some v => v
  | None => u8 "Individual"
  end.

(* ------------------------------------------------------------------ *)
(** ** [pd.to_datetime(s, format=CLOSE_FMT, errors="coerce")]

    pandas compiles [CLOSE_FMT = "%b %d, %Y, %I:%M:%S %p"] with the
    [_strptime.TimeRE] of the standard library (English locale), with
    [re.IGNORECASE]: each run of whitespace in the format becomes [\s+],
    and the directives become
      [%b]  [jan|feb|mar|apr|may|jun|jul|aug|sep|oct|nov|dec]
      [%d]  [3[01]|[12]\d|0[1-9]|[1-9]| [1-9]]
      [%Y]  [\d\d\d\d]
      [%I]  [1[0-2]|0[1-9]|[1-9]]
      [%M]  [[0-5]\d|\d]
      [%S]  [6[0-1]|[0-5]\d|\d]
      [%p]  [am|pm].
    [re.match] returns the first match in backtracking order; pandas then
    raises "unconverted data remains" unless it ends at the end of the
    string.  A matcher below returns all its matches in backtracking
    order.  [\d] is taken as the ASCII digits (other Unicode decimal
    digits are not modelled). *)

Definition Matcher (A : Type) := pystr -> list (A * pystr).

Definition m_ret {A} (a : A) : Matcher A := fun s => [(a, s)].

Definition m_bind {A B} (m : Matcher A) (k : A -> Matcher B) : Matcher B :=
  fun s => List.concat (map (fun ar => k ar.1 ar.2) (m s)).

Definition m_alt {A} (m1 m2 : Matcher A) : Matcher A := fun s => m1 s ++ m2 s.

Notation "x <-- m ;; k" := (m_bind m (fun x => k)) (at level 100, m at next level, right associativity).

Definition m_char (p : Z -> bool) : Matcher Z :=
  fun s => match s with
           | c :: r => if p c then [(c, r)] else []
           | [] => []
           end.

Definition in_range (lo hi c : Z) : bool := (lo <=? c) && (c <=? hi).

(** one code point matching lower-case ASCII letter [x] under IGNORECASE *)
Definition m_letter (x : Z) : Matcher Z := m_char (fun c => (c =? x) || (c =? x - 32)).

Definition m_lit (x : Z) : Matcher Z := m_char (fun c => c =? x).

Definition m_digit : Matcher Z := c <-- m_char is_digit ;; m_ret (c - 48).

(** [\s*] and [\s+], greedy *)
Fixpoint ws_star (s : pystr) : list (unit * pystr) :=
  match s with
  | c :: r => if is_space c then ws_star r ++ [(tt, s)] else [(tt, s)]
  | [] => [(tt, s)]
  end.

Definition ws_plus : Matcher unit :=
  fun s => match s with
           | c :: r => if is_space c then ws_star r else []
           | [] => []
           end.

Definition month_abbrs : list pystr :=
  map u8 ["jan"; "feb"; "mar"; "apr"; "may"; "jun"; "jul"; "aug"; "sep"; "oct"; "nov"; "dec"]%string.

Fixpoint m_word (w : pystr) : Matcher unit :=
  match w with
  | [] => m_ret tt
  | x :: t => _ <-- m_letter x ;; m_word t
  end.

(** [%b]: the month number [a_month.index(found.lower())] *)
Fixpoint m_month_from (i : Z) (names : list pystr) : Matcher Z :=
  match names with
  | [] => fun _ => []
  | w :: t => m_alt (_ <-- m_word w ;; m_ret i) (m_month_from (i + 1) t)
  end.

Definition m_b : Matcher Z := m_month_from 1 month_abbrs.

(** [%d]: [3[01]|[12]\d|0[1-9]|[1-9]| [1-9]] *)
Definition m_d : Matcher Z :=
  m_alt (_ <-- m_lit 51 ;; c <-- m_char (in_range 48 49) ;; m_ret (30 + c - 48))
  (m_alt (a <-- m_char (in_range 49 50) ;; b <-- m_digit ;; m_ret ((a - 48) * 10 + b))
  (m_alt (_ <-- m_lit 48 ;; c <-- m_char (in_range 49 57) ;; m_ret (c - 48))
  (m_alt (c <-- m_char (in_range 49 57) ;; m_ret (c - 48))
         (_ <-- m_lit 32 ;; c <-- m_char (in_range 49 57) ;; m_ret (c - 48))))).

(** [%Y]: [\d\d\d\d] *)
Definition m_Y : Matcher Z :=
  a <-- m_digit ;; b <-- m_digit ;; c <-- m_digit ;; d <-- m_digit ;;
  m_ret (((a * 10 + b) * 10 + c) * 10 + d).

(** [%I]: [1[0-2]|0[1-9]|[1-9]] *)
Definition m_I : Matcher Z :=
  m_alt (_ <-- m_lit 49 ;; c <-- m_char (in_range 48 50) ;; m_ret (10 + c - 48))
  (m_alt (_ <-- m_lit 48 ;; c <-- m_char (in_range 49 57) ;; m_ret (c - 48))
         (c <-- m_char (in_range 49 57) ;; m_ret (c - 48))).

(** [%M]: [[0-5]\d|\d] *)
Definition m_M : Matcher Z :=
  m_alt (a <-- m_char (in_range 48 53) ;; b <-- m_digit ;; m_ret ((a - 48) * 10 + b))
        m_digit.

(** [%S]: [6[0-1]|[0-5]\d|\d] *)
Definition m_S : Matcher Z :=
  m_alt (_ <-- m_lit 54 ;; c <-- m_char (in_range 48 49) ;; m_ret (60 + c - 48))
  (m_alt (a <-- m_char (in_range 48 53) ;; b <-- m_digit ;; m_ret ((a - 48) * 10 + b))
         m_digit).

(** [%p]: [am|pm]; [true] for "pm" *)
Definition m_p : Matcher bool :=
  m_alt (_ <-- m_word (u8 "am") ;; m_ret false) (_ <-- m_word (u8 "pm") ;; m_ret true).

Record close_fields := {
  cf_month : Z; cf_day : Z; cf_year : Z;
  cf_I : Z; cf_M : Z; cf_S : Z; cf_pm : bool }.

(** [%b\s+%d,\s+%Y,\s+%I:%M:%S\s+%p] *)
Definition m_close_fmt : Matcher close_fields :=
  mo <-- m_b ;; _ <-- ws_plus ;; dd <-- m_d ;; _ <-- m_lit 44 ;; _ <-- ws_plus ;;
  y <-- m_Y ;; _ <-- m_lit 44 ;; _ <-- ws_plus ;;
  h <-- m_I ;; _ <-- m_lit 58 ;; mi <-- m_M ;; _ <-- m_lit 58 ;; se <-- m_S ;;
  _ <-- ws_plus ;; pm <-- m_p ;;
  m_ret {| cf_month := mo; cf_day := dd; cf_year := y;
           cf_I := h; cf_M := mi; cf_S := se; cf_pm := pm |}.

(** the [%I]/[%p] hour rule of [_strptime] *)
Definition hour24 (h : Z) (pm : bool) : Z :=
  if pm then (if h =? 12 then 12 else h + 12) else (if h =? 12 then 0 else h).

(** [1970-01-01].toordinal() *)
Definition EPOCH_ORDINAL : Z := 719163.

(** the bounds of [datetime64[us]], the unit pandas 3 gives to parsed
    strings, checked by [check_dts_bounds]: [OutOfBoundsDatetime]
    outside them (they hold for every year from 1 to 9999) *)
Definition us_in_bounds (secs : Z) : bool :=
  (- 9223372036854775807 <=? secs * 1000000)
  && (secs * 1000000 <=? 9223372036854775807).

(** One value through [array_strptime] with [errors="coerce"] and then
    [.dt.date]: [None] is [NaT].  Every failure ([re.match] failing,
    unconverted data, [ValueError] from [date(y, m, d)], out of bounds)
    is coerced to [NaT]. *)
Definition parse_close_date (s : pystr) : option date :=
  match m_close_fmt s with
  | (f, rest) :: _ =>
      match rest with
      | [] =>
          d ← mk_date f.(cf_year) f.(cf_month) f.(cf_day);
          let secs := (d - EPOCH_ORDINAL) * 86400
                      + hour24 f.(cf_I) f.(cf_pm) * 3600 + f.(cf_M) * 60 + f.(cf_S) in
          if us_in_bounds secs then Some d else None
      | _ :: _ => None
      end
  | [] => None
  end.

(** [df["Close Date"].astype(str).str.replace("\u202f", " ")
      .pipe(pd.to_datetime, format=CLOSE_FMT, errors="coerce").dt.date]
    on one cell (lines 72-76) *)
Definition close_date_cell (c : cell) : cell :=
  match parse_close_date (replace_char 8239 32 (py_str c)) with
  | Some d => CDate d
  | None => CNaT
  end.

(* ------------------------------------------------------------------ *)
(** ** DataFrames

    A frame is its column labels and its rows, each row mapping labels
    to cells.  The index is positional ([reset_index(drop=True)] leaves
    the model unchanged) and [read_csv] never yields repeated labels.
    Every column is an object column of the cells above, as [read_csv]
    gives for a text column; a column [read_csv] types as numeric (all
    of its fields empty or numbers) is outside the model. *)

Definition row := list (pystr * cell).

Record frame := { header : list pystr; rows : list row }.

Fixpoint row_get (r : row) (c : pystr) : cell :=
  match r with
  | [] => CNa
  | (k, v) :: t => if pystr_eqb k c then v else row_get t c
  end.

Fixpoint row_set (r : row) (c : pystr) (v : cell) : row :=
  match r with
  | [] => [(c, v)]
  | (k, x) :: t => if pystr_eqb k c then (k, v) :: t else (k, x) :: row_set t c v
  end.

Definition has_col (df : frame) (c : pystr) : bool := existsb (pystr_eqb c) (header df).

(** [df[cols]]: [KeyError] when a label is missing *)
Definition getitem_cols (df : frame) (cols : list pystr) : option frame :=
  if forallb (has_col df) cols
  then Some {| header := cols;
               rows := map (fun r => map (fun c => (c, row_get r c)) cols) (rows df) |}
  else None.

(** [df[c]] as a Series *)
Definition column (df : frame) (c : pystr) : option (list cell) :=
  if has_col df c then Some (map (fun r => row_get r c) (rows df)) else None.

(** [df[c] = values]: replaces the column, or appends it *)
Definition setitem (df : frame) (c : pystr) (vals : list cell) : frame :=
  {| header := if has_col df c then header df else header df ++ [c];
     rows := zip_with (fun r v => row_set r c v) (rows df) vals |}.

(** [df[mask]] *)
Definition bool_index (df : frame) (mask : list bool) : frame :=
  {| header := header df;
     rows := map fst (List.filter snd (zip (rows df) mask)) |}.

Definition c_Url : pystr := Eval vm_compute in u8 "Url".
Definition c_Ticket_Name : pystr := Eval vm_compute in u8 "Ticket Name".
Definition c_Importer : pystr := Eval vm_compute in u8 "Importer".
Definition c_Import_Type : pystr := Eval vm_compute in u8 "Import Type".
Definition c_Business_Line : pystr := Eval vm_compute in u8 "Business Line".
Definition c_Close_Date : pystr := Eval vm_compute in u8 "Close Date".
Definition c_BL_CAT : pystr := Eval vm_compute in u8 "BL_CAT".
Definition c_ImporterShort : pystr := Eval vm_compute in u8 "ImporterShort".

(** [Series.between(start, end, inclusive="both")] on the parsed dates:
    [NaT] compares false *)
Definition between (start end_ : date) (c : cell) : bool :=
  match c with
  | CDate d => (start <=? d) && (d <=? end_)
  | _ => false
  end.

Definition is_nat_cell (c : cell) : bool := match c with CNaT => true | _ => false end.
Definition is_nan_cell (c : cell) : bool := match c with CNa => true | _ => false end.

(** a column with at least one value, all [NaT] *)
Definition all_nat_column (col : list cell) : bool :=
  match col with [] => false | _ => forallb is_nat_cell col end.

(** a column with at least one value, all missing *)
Definition all_nan_column (col : list cell) : bool :=
  match col with [] => false | _ => forallb is_nan_cell col end.

(** [df["Close Date"].between(start, end, inclusive="both")] on the whole
    column.  [.dt.date] gives an object column of dates and [NaT]; when
    it has values and all of them are [NaT], pandas infers [datetime64]
    for it again, and comparing that with a [date] raises [TypeError]. *)
Definition between_col (start end_ : date) (col : list cell) : option (list bool) :=
  if all_nat_column col then None else Some (map (between start end_) col).

(** [Series.str.startswith(("Complete", "No Importation"), na=False)]:
    a value that is not a [str] gives [NaN], filled with [False] *)
Definition startswith_type (c : cell) : bool :=
  match c with
  | CStr s => py_startswith s (u8 "Complete") || py_startswith s (u8 "No Importation")
  | _ => false
  end.

(** [df["Import Type"].str.startswith(...)] on the whole column: a
    column [read_csv] fills with missing values only (and at least one
    row) is [float64], and [.str] raises [AttributeError] on it *)
Definition startswith_col (col : list cell) : option (list bool) :=
  if all_nan_column col then None else Some (map startswith_type col).

(** [Series.isin(ALLOWED_IMPORTERS)] *)
Definition isin_allowed (c : cell) : bool :=
  match c with
  | CStr s => existsb (pystr_eqb s) ALLOWED_IMPORTERS
  | _ => false
  end.

(** [Series.map(IMPORTER_SHORT)]: a missing key gives [NaN] *)
Definition map_importer_short (c : cell) : cell :=
  match c with
  | CStr s => match dict_get IMPORTER_SHORT s with Some v => CStr v | None => CNa end
  | _ => CNa
  end.

(** Lines 69-76 of [load_and_filter]: the column subset, its [.copy()]
    (invisible in a value model, see [Heap] for the store) and the
    parsed Close Date. *)
Definition select_and_parse (df0 : frame) : option frame :=
  df1 ← getitem_cols df0 KEEP_COLS;
  cd ← column df1 c_Close_Date;
  Some (setitem df1 c_Close_Date (map close_date_cell cd)).

(** Lines 78-86 of [load_and_filter]: the window, the three masks, the
    row selection and the two derived columns. *)
Definition filter_and_enrich (df2 : frame) (reference_date : date) : option frame :=
  '(start, end_) ← previous_week_window reference_date;
  cd2 ← column df2 c_Close_Date;
  mask_period ← between_col start end_ cd2;
  it ← column df2 c_Import_Type;
  mask_type ← startswith_col it;
  im ← column df2 c_Importer;
  let mask_imp := map isin_allowed im in
  let df3 := bool_index df2 (zip_with andb (zip_with andb mask_period mask_type) mask_imp) in
  bl ← column df3 c_Business_Line;
  let df4 := setitem df3 c_BL_CAT (map (fun c => CStr (business_line_cat c)) bl) in
  im4 ← column df4 c_Importer;
  Some (setitem df4 c_ImporterShort (map map_importer_short im4)).

(** [load_and_filter] (lines 67-86) *)
Definition load_and_filter (df0 : frame) (reference_date : date) : option frame :=
  df2 ← select_and_parse df0;
  filter_and_enrich df2 reference_date.

(* ------------------------------------------------------------------ *)
(** ** [build_messages] (lines 89-171) *)

Definition a_Alessia : pystr := Eval vm_compute in u8 "Alessia".
Definition a_Andrea : pystr := Eval vm_compute in u8 "Andrea".
Definition a_Enrico : pystr := Eval vm_compute in u8 "Enrico".
Definition a_Pedro : pystr := Eval vm_compute in u8 "Pedro".
Definition v_Facility : pystr := Eval vm_compute in u8 "Facility".
Definition v_Individual : pystr := Eval vm_compute in u8 "Individual".

(** the index given to [reindex] *)
Definition ALIASES : list pystr := [a_Alessia; a_Andrea; a_Enrico; a_Pedro].

(** [series.value_counts().get(v, 0)] (a count of zero for an absent
    value, as [get] with default and [reindex(fill_value=0)] give) *)
Definition count_value (v : pystr) (col : list cell) : Z :=
  Z.of_nat (List.length (List.filter (fun c => cell_eqb c (CStr v)) col)).

(** [drop_duplicates(subset="Url")], keeping the first row of each Url;
    it runs after [dropna()], so no missing value reaches it *)
Fixpoint drop_duplicates_url (seen : list cell) (l : list (cell * cell)) : list (cell * cell) :=
  match l with
  | [] => []
  | p :: t =>
      if existsb (cell_eqb p.2) seen then drop_duplicates_url seen t
      else p :: drop_duplicates_url (p.2 :: seen) t
  end.

(** the order [sort_values] uses on one column of Ticket Names:
    Python's [<] on [str] (code point order) or on [date] *)
Definition name_leb (a b : cell) : bool :=
  match a, b with
  | CStr x, CStr y => negb (pystr_ltb y x)
  | CDate x, CDate y => x <=? y
  | _, _ => true
  end.

Fixpoint insert_by_name (p : cell * cell) (l : list (cell * cell)) : list (cell * cell) :=
  match l with
  | [] => [p]
  | q :: t => if name_leb p.1 q.1 then p :: q :: t else q :: insert_by_name p t
  end.

Definition is_str_cell (c : cell) : bool := match c with CStr _ => true | _ => false end.
Definition is_date_cell (c : cell) : bool := match c with CDate _ => true | _ => false end.

(** [sort_values("Ticket Name")]: numpy's argsort compares the names
    with [<], which raises [TypeError] between a [str] and a [date].
    numpy's quicksort does not fix the relative order of equal names;
    the insertion sort here keeps them in table order. *)
Definition sort_values_name (l : list (cell * cell)) : option (list (cell * cell)) :=
  if forallb (fun p => is_str_cell p.1) l || forallb (fun p => is_date_cell p.1) l
  then Some (foldr insert_by_name [] l)
  else None.

(** The values [build_messages] computes before rendering. *)
Record report := {
  tot_total : Z;
  facility : Z;
  individual : Z;
  imp_counts : list (pystr * Z);
  fac_links : list (cell * cell) }.

Definition imp_count (r : report) (a : pystr) : Z :=
  match dict_get_Z (imp_counts r) a with Some n => n | None => 0 end.

Definition facility_pairs (df : frame) : option (list (cell * cell)) :=
  bl ← column df c_BL_CAT;
  fac ← getitem_cols (bool_index df (map (fun c => cell_eqb c (CStr v_Facility)) bl))
                     [c_Ticket_Name; c_Url];
  let pairs := map (fun r => (row_get r c_Ticket_Name, row_get r c_Url)) (rows fac) in
  let pairs := List.filter (fun p => negb (is_na p.1) && negb (is_na p.2)) pairs in
  sort_values_name (drop_duplicates_url [] pairs).

(** lines 91-98: the Business Line counts, the total and the importer
    counts reindexed on [ALIASES] *)
Definition counts_of (df : frame) : option (Z * Z * Z * list (pystr * Z)) :=
  bl ← column df c_BL_CAT;
  isr ← column df c_ImporterShort;
  Some (count_value v_Facility bl, count_value v_Individual bl,
        Z.of_nat (List.length (rows df)),
        map (fun a => (a, count_value a isr)) ALIASES).

Definition report_of (df : frame) : option report :=
  '(f, i, t, imp) ← counts_of df;
  fac ← facility_pairs df;
  Some {| tot_total := t; facility := f; individual := i;
          imp_counts := imp; fac_links := fac |}.

(** [html.escape(s)] (quote=True); it raises on a value that is not a [str] *)
Definition html_escape_char (c : Z) : pystr :=
  if c =? 38 then u8 "&amp;"
  else if c =? 60 then u8 "&lt;"
  else if c =? 62 then u8 "&gt;"
  else if c =? 34 then u8 "&quot;"
  else if c =? 39 then u8 "&#x27;"
  else [c].

Definition html_escape (c : cell) : option pystr :=
  match c with
  | CStr s => Some (List.concat (map html_escape_char s))
  | _ => None
  end.

Fixpoint join (sep : pystr) (l : list pystr) : pystr :=
  match l with
  | [] => []
  | [x] => x
  | x :: t => x ++ sep ++ join sep t
  end.

Definition NO_FACILITY_MD : pystr := u8 "_Nessuna facility questa settimana_".
Definition NO_FACILITY_HTML : pystr := u8 "<em>Nessuna facility questa settimana</em>".

(** [sub in s] for two [str]s *)
Fixpoint pystr_prefixb (p s : pystr) : bool :=
  match p, s with
  | [], _ => true
  | x :: p', y :: s' => (x =? y) && pystr_prefixb p' s'
  | _ :: _, [] => false
  end.

Fixpoint pystr_infixb (p s : pystr) : bool :=
  pystr_prefixb p s || match s with [] => false | _ :: s' => pystr_infixb p s' end.

Definition links_md_of (fac : list (cell * cell)) : pystr :=
  match fac with
  | [] => NO_FACILITY_MD
  | _ => join [10] (map (fun p => u8 "- [" ++ py_str p.1 ++ u8 "](" ++ py_str p.2 ++ u8 ")") fac)
  end.

Definition links_html_of (fac : list (cell * cell)) : option pystr :=
  match fac with
  | [] => Some NO_FACILITY_HTML
  | _ =>
      items ← mapM (fun p =>
                 eu ← html_escape p.2;
                 en ← html_escape p.1;
                 Some (u8 "<li><a href=" ++ [34] ++ eu ++ [34] ++ u8 ">" ++ en ++ u8 "</a></li>"))
               fac;
      Some (u8 "<ul>" ++ List.concat items ++ u8 "</ul>")
  end.

Definition render_plain (r : report) (links_md : pystr) : pystr :=
  u8 "Ciao Luisa,
di seguito gli import di questa settimana. Sono stati fatti "
  ++ py_str_int (tot_total r)
  ++ u8 " import così divisi:

Business Line"
  ++ [9]
  ++ u8 "Volumi
Facility"
  ++ [9]
  ++ py_str_int (facility r)
  ++ u8 "
Individual"
  ++ [9]
  ++ py_str_int (individual r)
  ++ u8 "
Totale complessivo"
  ++ [9]
  ++ py_str_int (tot_total r)
  ++ u8 "

*Il dato relativo alle Facility comprende anche le Cliniche GP, GIPO e DPP.*

Di seguito le lavorazioni suddivise per importer:

Importer"
  ++ [9]
  ++ u8 "Volumi
Alessia"
  ++ [9]
  ++ py_str_int (imp_count r a_Alessia)
  ++ u8 "
Andrea"
  ++ [9]
  ++ py_str_int (imp_count r a_Andrea)
  ++ u8 "
Enrico"
  ++ [9]
  ++ py_str_int (imp_count r a_Enrico)
  ++ u8 "
Pedro"
  ++ [9]
  ++ py_str_int (imp_count r a_Pedro)
  ++ u8 "
Totale complessivo"
  ++ [9]
  ++ py_str_int (tot_total r)
  ++ u8 "

Di seguito i link delle cliniche (sia CRM che GIPO che Gruppi GP che Cliniche DPP) interessate:

"
  ++ links_md
  ++ u8 "
".

Definition render_html (r : report) (links_html : pystr) : pystr :=
  u8 "<p>Ciao Luisa,</p>

<p>di seguito gli import di questa settimana.<br>
Sono stati fatti <strong>"
  ++ py_str_int (tot_total r)
  ++ u8 "</strong> import così divisi:</p>

<table border="
  ++ [34]
  ++ u8 "1"
  ++ [34]
  ++ u8 " cellspacing="
  ++ [34]
  ++ u8 "0"
  ++ [34]
  ++ u8 " cellpadding="
  ++ [34]
  ++ u8 "4"
  ++ [34]
  ++ u8 ">
  <tr><th>Business Line</th><th>Volumi</th></tr>
  <tr><td>Facility</td><td>"
  ++ py_str_int (facility r)
  ++ u8 "</td></tr>
  <tr><td>Individual</td><td>"
  ++ py_str_int (individual r)
  ++ u8 "</td></tr>
  <tr><td><strong>Totale complessivo</strong></td><td><strong>"
  ++ py_str_int (tot_total r)
  ++ u8 "</strong></td></tr>
</table>

<p><em>Il dato relativo alle Facility comprende anche le Cliniche GP, GIPO e DPP.</em></p>

<p>Di seguito le lavorazioni suddivise per importer:</p>

<table border="
  ++ [34]
  ++ u8 "1"
  ++ [34]
  ++ u8 " cellspacing="
  ++ [34]
  ++ u8 "0"
  ++ [34]
  ++ u8 " cellpadding="
  ++ [34]
  ++ u8 "4"
  ++ [34]
  ++ u8 ">
  <tr><th>Importer</th><th>Volumi</th></tr>
  <tr><td>Alessia</td><td>"
  ++ py_str_int (imp_count r a_Alessia)
  ++ u8 "</td></tr>
  <tr><td>Andrea</td><td>"
  ++ py_str_int (imp_count r a_Andrea)
  ++ u8 "</td></tr>
  <tr><td>Enrico</td><td>"
  ++ py_str_int (imp_count r a_Enrico)
  ++ u8 "</td></tr>
  <tr><td>Pedro</td><td>"
  ++ py_str_int (imp_count r a_Pedro)
  ++ u8 "</td></tr>
  <tr><td><strong>Totale complessivo</strong></td><td><strong>"
  ++ py_str_int (tot_total r)
  ++ u8 "</strong></td></tr>
</table>

<p>Di seguito i link delle cliniche (sia CRM che GIPO che Gruppi GP che Cliniche DPP) interessate:</p>

"
  ++ links_html
  ++ u8 "
".

Definition build_messages (df : frame) : option (pystr * pystr) :=
  r ← report_of df;
  let links_md := links_md_of (fac_links r) in
  links_html ← links_html_of (fac_links r);
  Some (render_plain r links_md, render_html r links_html).

(* ------------------------------------------------------------------ *)
(** ** Row-wise reading of [load_and_filter]

    What the column operations of [load_and_filter] do to one row; the
    lemma [load_and_filter_eq] below shows the frame operations amount
    to these. *)

(** a row of [df[KEEP_COLS]] *)
Definition proj_row (r : row) : row := map (fun c => (c, row_get r c)) KEEP_COLS.

(** the same row after the Close Date assignment *)
Definition parse_row (r : row) : row :=
  row_set r c_Close_Date (close_date_cell (row_get r c_Close_Date)).

(** [mask_period & mask_type & mask_imp] on one row *)
Definition keep_row (start end_ : date) (r : row) : bool :=
  between start end_ (row_get r c_Close_Date)
  && startswith_type (row_get r c_Import_Type)
  && isin_allowed (row_get r c_Importer).

(** lines 79-80 on the parsed rows: [between] raises [TypeError] on an
    all-[NaT] Close Date column, [.str] raises [AttributeError] on an
    all-missing Import Type column *)
Definition frame_raises (prs : list row) : bool :=
  all_nat_column (map (fun r => row_get r c_Close_Date) prs)
  || all_nan_column (map (fun r => row_get r c_Import_Type) prs).

(** the two derived columns of one kept row *)
Definition enrich_row (r : row) : row :=
  let r' := row_set r c_BL_CAT (CStr (business_line_cat (row_get r c_Business_Line))) in
  row_set r' c_ImporterShort (map_importer_short (row_get r' c_Importer)).

Definition OUT_COLS : list pystr := KEEP_COLS ++ [c_BL_CAT; c_ImporterShort].

(* ------------------------------------------------------------------ *)
(** ** [load_and_filter] over a store of DataFrame objects

    The value model above cannot tell a fresh frame from the caller's.
    Here DataFrames are objects in a store: [df[cols]], [.copy()],
    [df[mask]] and [.reset_index(drop=True)] allocate a new object, and
    [df[c] = vals] updates the object in place. *)

Module Heap.

Definition loc := nat.

Record state := mkState { store : gmap loc frame; next : loc }.

(** every allocated object sits below [next] *)
Definition wf (σ : state) : Prop := forall l, is_Some (store σ !! l) -> (l < next σ)%nat.

Definition ST (A : Type) := state -> option (A * state).

Definition st_ret {A} (a : A) : ST A := fun σ => Some (a, σ).

Definition st_bind {A B} (m : ST A) (k : A -> ST B) : ST B :=
  fun σ => match m σ with Some (a, σ') => k a σ' | None => None end.

#[global] Instance st_mret : MRet ST := @st_ret.
#[global] Instance st_mbind : MBind ST := fun A B k m => st_bind m k.

(** a failure of the value model (a [KeyError], an [OverflowError]) *)
Definition st_lift {A} (o : option A) : ST A :=
  fun σ => match o with Some a => Some (a, σ) | None => None end.

Definition alloc (f : frame) : ST loc :=
  fun σ => Some (next σ, mkState (<[next σ := f]> (store σ)) (S (next σ))).

Definition load (l : loc) : ST frame :=
  fun σ => match store σ !! l with Some f => Some (f, σ) | None => None end.

Definition store_at (l : loc) (f : frame) : ST unit :=
  fun σ => match store σ !! l with
           | Some _ => Some (tt, mkState (<[l := f]> (store σ)) (next σ))
           | None => None
           end.

Definition column_at (l : loc) (c : pystr) : ST (list cell) :=
  f ← load l; st_lift (column f c).

(** [df[c] = vals] on the object at [l] *)
Definition setitem_at (l : loc) (c : pystr) (vals : list cell) : ST unit :=
  f ← load l; store_at l (setitem f c vals).

(** [load_and_filter(df, reference_date)] with [df] the object at [l_df];
    it returns the location of the frame it returns *)
Definition load_and_filter_st (l_df : loc) (reference_date : date) : ST loc :=
  df0 ← load l_df;
  df1 ← st_lift (getitem_cols df0 KEEP_COLS);
  l1 ← alloc df1;
  df1' ← load l1;
  l2 ← alloc df1';
  cd ← column_at l2 c_Close_Date;
  _ ← setitem_at l2 c_Close_Date (map close_date_cell cd);
  '(start, end_) ← st_lift (previous_week_window reference_date);
  cd2 ← column_at l2 c_Close_Date;
  mask_period ← st_lift (between_col start end_ cd2);
  it ← column_at l2 c_Import_Type;
  mask_type ← st_lift (startswith_col it);
  im ← column_at l2 c_Importer;
  let mask_imp := map isin_allowed im in
  df2 ← load l2;
  l3 ← alloc (bool_index df2 (zip_with andb (zip_with andb mask_period mask_type) mask_imp));
  df3 ← load l3;
  l4 ← alloc df3;
  bl ← column_at l4 c_Business_Line;
  _ ← setitem_at l4 c_BL_CAT (map (fun c => CStr (business_line_cat c)) bl);
  im4 ← column_at l4 c_Importer;
  _ ← setitem_at l4 c_ImporterShort (map map_importer_short im4);
  mret l4.

End Heap.

(* ------------------------------------------------------------------ *)
(** ** Concrete inputs *)

Definition sample_row (imp bl cd ty : String.string) : row :=
  [(u8 "Url", CStr (u8 "https://crm/1")); (u8 "Ticket Name", CStr (u8 "Clinic A"));
   (u8 "Importer", CStr (u8 imp)); (u8 "Import Type", CStr (u8 ty));
   (u8 "Business Line", CStr (u8 bl)); (u8 "Close Date", CStr (u8 cd));
   (u8 "Owner", CStr (u8 "x"))].
Definition sample : frame :=
  {| header := KEEP_COLS ++ [u8 "Owner"];
     rows := [sample_row "Andrea Sergi" "GIPO" "Jul 8, 2025, 10:00:00 AM" "Complete - Auto";
              sample_row "Someone Else" "GIPO" "Jul 8, 2025, 10:00:00 AM" "Complete - Auto";
              sample_row "Andrea Sergi" "GIPO" "Jul 1, 2025, 10:00:00 AM" "Complete - Auto"] |}.

(** a row of the six kept columns, with its own Url and Ticket Name *)
Definition link_row (url name imp bl cd ty : String.string) : row :=
  [(u8 "Url", CStr (u8 url)); (u8 "Ticket Name", CStr (u8 name));
   (u8 "Importer", CStr (u8 imp)); (u8 "Import Type", CStr (u8 ty));
   (u8 "Business Line", CStr (u8 bl)); (u8 "Close Date", CStr (u8 cd))].

(** Facility rows out of name order, two of them sharing a Url, and an
    Individual row *)
Definition sample_links : frame :=
  {| header := KEEP_COLS;
     rows := [link_row "https://crm/3" "Zeta" "Andrea Sergi" "GIPO"
                       "Jul 8, 2025, 10:00:00 AM" "Complete - Auto";
              link_row "https://crm/1" "Alpha" "Enrico Radaelli" "clinic agenda"
                       "Jul 9, 2025, 11:30:00 AM" "No Importation";
              link_row "https://crm/3" "Beta" "Andrea Pedroli" "gp gruppi"
                       "Jul 10, 2025, 09:15:00 PM" "Complete";
              link_row "https://crm/2" "Gamma" "Alessia Pellegrino" "individuals"
                       "Jul 11, 2025, 12:00:00 PM" "Complete - Auto"] |}.

(* ------------------------------------------------------------------ *)
(** ** The Streamlit page (lines 197-221)

    Once the CSV is read into [raw_df]: the filtered table, the three
    KPI cards ([st.metric] shows [f"{n}"]) and the two messages. *)

Definition page_kpis (df_filtered : frame) : option (Z * Z * Z) :=
  bl_counts ← column df_filtered c_BL_CAT;
  Some (Z.of_nat (List.length (rows df_filtered)),
        count_value v_Facility bl_counts, count_value v_Individual bl_counts).

Definition page_run (raw_df : frame) (ref_date : date)
  : option ((pystr * pystr * pystr) * (pystr * pystr)) :=
  df_filtered ← load_and_filter raw_df ref_date;
  '(tot_imports, facility, individual) ← page_kpis df_filtered;
  msgs ← build_messages df_filtered;
  Some ((py_str_int tot_imports, py_str_int facility, py_str_int individual), msgs).

(* ------------------------------------------------------------------ *)
(** ** Auxiliary predicates and inputs *)

(** a row whose Close Date is not in [CLOSE_FMT] *)
Definition bad_date_row : row :=
  sample_row "Andrea Sergi" "GIPO" "2025-07-08 10:00" "Complete - Auto".

(** a string that cannot start a month name: a digit or '-' *)
Definition not_letter_head (s : pystr) : Prop :=
  exists c t, s = c :: t /\ c <= 57.

(** the order of [sort_values("Ticket Name")] on (Ticket Name, Url) pairs *)
Definition name_le (p q : cell * cell) : Prop := name_leb p.1 q.1 = true.

(** a cell as [read_csv] gives it for a text column: a [str] or [NaN] *)
Definition str_or_na (c : cell) : bool :=
  match c with CStr _ | CNa => true | _ => false end.

(* ================================================================== *)
(** * Properties *)

Example t1 : previous_week_window (ymd2ord 2025 7 16) = Some (ymd2ord 2025 7 7, ymd2ord 2025 7 13).
Proof. vm_compute. reflexivity. Qed.
Example t2 : close_date_cell (CStr (u8 "Jul 14, 2025, 04:20:01 PM")) = CDate (ymd2ord 2025 7 14).
Proof. vm_compute. reflexivity. Qed.
Example t3 : close_date_cell (CStr (u8 "jul  4, 2025, 4:20:01 am")) = CDate (ymd2ord 2025 7 4).
Proof. vm_compute. reflexivity. Qed.
Example t4 : close_date_cell (CStr (u8 "Feb 30, 2025, 04:20:01 PM")) = CNaT.
Proof. vm_compute. reflexivity. Qed.
Example t5 : close_date_cell (CStr (u8 "Jul 14, 2025, 04:20:01 PM x")) = CNaT.
Proof. vm_compute. reflexivity. Qed.
Example t6 : close_date_cell (CStr (u8 "Jul 14, 2025, 04:20:01 PM")) = CDate (ymd2ord 2025 7 14).
Proof. vm_compute. reflexivity. Qed.
Example t7 : close_date_cell (CStr (u8 "Jul 14, 1500, 04:20:01 PM")) = CDate (ymd2ord 1500 7 14).
Proof. vm_compute. reflexivity. Qed.
Example t8 : business_line_cat (CStr (u8 "  GIPO ")) = u8 "Facility".
Proof. vm_compute. reflexivity. Qed.

Example t9 : option_map (fun f => List.length (rows f)) (load_and_filter sample (ymd2ord 2025 7 16)) = Some 1%nat.
Proof. vm_compute. reflexivity. Qed.


(* ------------------------------------------------------------------ *)
(** ** Strings *)

Lemma pystr_eqb_eq (a b : pystr) : pystr_eqb a b = true <-> a = b.
Proof.
  revert b; induction a as [|x a IH]; intros [|y b]; simpl; try (split; congruence).
  rewrite andb_true_iff, Z.eqb_eq, IH. split; [intros [-> ->]; reflexivity|].
  intros H; injection H; auto.
Qed.

Lemma pystr_eqb_refl (a : pystr) : pystr_eqb a a = true.
Proof. apply pystr_eqb_eq; reflexivity. Qed.

(* ------------------------------------------------------------------ *)
(** ** The previous-week window *)

Lemma weekday_bounds (d : date) : 0 <= weekday d < 7.
Proof. unfold weekday. apply Z.mod_pos_bound. lia. Qed.

Lemma monday_of_eq (d : date) :
  add_relativedelta_MO_minus1 d = date_add d (- weekday d).
Proof.
  unfold add_relativedelta_MO_minus1. rewrite Z.sub_0_r.
  rewrite (Z.mod_small (weekday d)); [reflexivity | apply weekday_bounds].
Qed.

Lemma date_add_some (d k : date) :
  MINORDINAL <= d + k <= MAXORDINAL -> date_add d k = Some (d + k).
Proof.
  intros [H1 H2]. unfold date_add.
  rewrite (proj2 (Z.leb_le _ _) H1), (proj2 (Z.leb_le _ _) H2). reflexivity.
Qed.

Lemma date_add_none (d k : date) :
  ~ (MINORDINAL <= d + k <= MAXORDINAL) -> date_add d k = None.
Proof.
  intros H. unfold date_add.
  destruct (Z.leb_spec MINORDINAL (d + k)), (Z.leb_spec (d + k) MAXORDINAL);
    simpl; auto; lia.
Qed.

Lemma previous_week_window_some (d : date) :
  8 <= d <= MAXORDINAL ->
  previous_week_window d = Some (d - weekday d - 7, d - weekday d - 1).
Proof.
  intros [H1 H2]. unfold previous_week_window. rewrite monday_of_eq.
  assert (Hw : d - weekday d = 7 * ((d + 6) / 7) - 6).
  { unfold weekday. pose proof (Z.div_mod (d + 6) 7). lia. }
  pose proof (weekday_bounds d) as Hb. unfold MAXORDINAL in *.
  rewrite date_add_some by (unfold MINORDINAL, MAXORDINAL; lia). simpl.
  rewrite date_add_some by (unfold MINORDINAL, MAXORDINAL; lia). simpl.
  rewrite date_add_some by (unfold MINORDINAL, MAXORDINAL; lia). simpl.
  f_equal. f_equal; lia.
Qed.

Lemma previous_week_window_none (d : date) :
  valid_date d -> d < 8 -> previous_week_window d = None.
Proof.
  intros [H1 _] H. unfold MINORDINAL in H1.
  assert (Hd : d = 1 \/ d = 2 \/ d = 3 \/ d = 4 \/ d = 5 \/ d = 6 \/ d = 7) by lia.
  destruct Hd as [->|[->|[->|[->|[->|[->| ->]]]]]]; vm_compute; reflexivity.
Qed.

(** C2 (corrected).  [previous_week_window] raises [OverflowError]
    exactly for the reference dates 0001-01-01 .. 0001-01-07, whose
    previous Monday lies before [date.min]; from 0001-01-08 on it returns
    the Monday seven days before the Monday on or before [d], and the
    Sunday six days after it. *)
Theorem previous_week_window_spec :
  (forall d, valid_date d -> (previous_week_window d = None <-> d < 8)) /\
  (forall d, 8 <= d <= MAXORDINAL ->
     exists start end_,
       previous_week_window d = Some (start, end_) /\
       weekday start = 0 /\ start = (d - weekday d) - 7 /\ end_ = start + 6) /\
  previous_week_window (ymd2ord 2025 7 16) = Some (ymd2ord 2025 7 7, ymd2ord 2025 7 13) /\
  previous_week_window (ymd2ord 2025 7 14) = Some (ymd2ord 2025 7 7, ymd2ord 2025 7 13).
Proof.
  assert (Hw : forall d, d - weekday d = 7 * ((d + 6) / 7) - 6).
  { intros d. unfold weekday. pose proof (Z.div_mod (d + 6) 7). lia. }
  split; [|split; [|split; vm_compute; reflexivity]].
  - intros d [H1 H2]. unfold previous_week_window. rewrite monday_of_eq.
    pose proof (weekday_bounds d) as Hb. specialize (Hw d).
    unfold MINORDINAL, MAXORDINAL in *.
    rewrite date_add_some by (unfold MINORDINAL, MAXORDINAL; lia). simpl.
    destruct (Z.le_gt_cases 8 d) as [Hd|Hd].
    + rewrite date_add_some by (unfold MINORDINAL, MAXORDINAL; lia). simpl.
      rewrite date_add_some by (unfold MINORDINAL, MAXORDINAL; lia). simpl.
      split; [discriminate | lia].
    + rewrite date_add_none by (unfold MINORDINAL, MAXORDINAL; lia). simpl.
      split; [lia | reflexivity].
  - intros d [H1 H2]. unfold previous_week_window. rewrite monday_of_eq.
    pose proof (weekday_bounds d) as Hb. pose proof (Hw d) as Hd.
    unfold MAXORDINAL in *.
    rewrite date_add_some by (unfold MINORDINAL, MAXORDINAL; lia). simpl.
    rewrite date_add_some by (unfold MINORDINAL, MAXORDINAL; lia). simpl.
    rewrite date_add_some by (unfold MINORDINAL, MAXORDINAL; lia). simpl.
    eexists _, _. split; [reflexivity|]. split; [|split; lia].
    assert (E : d + - weekday d + -7 + 6 = ((d + 6) / 7 - 1) * 7) by lia.
    unfold weekday at 1. rewrite E, Z.mod_mul; lia.
Qed.

(** C2, counterexample: for the reference date 0001-01-01 ([date.min])
    there is no window; the code raises [OverflowError]. *)
Lemma previous_week_window_date_min :
  valid_date (ymd2ord 1 1 1) /\ previous_week_window (ymd2ord 1 1 1) = None.
Proof. split; [vm_compute; split; discriminate | vm_compute; reflexivity]. Qed.

(* ------------------------------------------------------------------ *)
(** ** Business Line categories *)

(** C5.  [business_line_cat] is a total function: it strips, lower-cases
    and maps the four Facility labels to "Facility" and every other
    value (the two Individual labels, unknown labels, the empty string)
    to "Individual". *)
Theorem business_line_cat_total (x : cell) :
  business_line_cat x =
    (if existsb (pystr_eqb (py_lower (py_strip (py_str x))))
                [u8 "gp gruppi"; u8 "gipo"; u8 "dp phone"; u8 "clinic agenda"]
     then u8 "Facility" else u8 "Individual") /\
  business_line_cat (CStr (u8 "  GIPO ")) = u8 "Facility" /\
  business_line_cat (CStr (u8 "unknown-thing")) = u8 "Individual" /\
  business_line_cat (CStr []) = u8 "Individual".
Proof.
  split; [|vm_compute; repeat split].
  unfold business_line_cat. generalize (py_lower (py_strip (py_str x))) as k. intros k.
  unfold BUSINESS_LINE_MAP. cbn [dict_get existsb].
  repeat match goal with
  | |- context [pystr_eqb k ?l] =>
      let E := fresh "E" in
      destruct (pystr_eqb k l) eqn:E;
      [apply pystr_eqb_eq in E; subst k; vm_compute; reflexivity|]
  end.
  reflexivity.
Qed.

(* ------------------------------------------------------------------ *)
(** ** Frame operations, row by row *)

Lemma row_get_set (r : row) (c c' : pystr) (v : cell) :
  row_get (row_set r c v) c' = if pystr_eqb c c' then v else row_get r c'.
Proof.
  induction r as [|[k x] t IH]; simpl; [reflexivity|].
  destruct (pystr_eqb k c) eqn:Ekc; simpl.
  - apply pystr_eqb_eq in Ekc; subst k. destruct (pystr_eqb c c'); reflexivity.
  - destruct (pystr_eqb k c') eqn:Ekc'; rewrite ?IH; [|reflexivity].
    apply pystr_eqb_eq in Ekc'; subst k.
    destruct (pystr_eqb c c') eqn:E; [|reflexivity].
    apply pystr_eqb_eq in E; subst c. rewrite pystr_eqb_refl in Ekc. discriminate.
Qed.

Lemma zip_with_map_same {A B C} (g : A -> B -> C) (f : A -> B) (l : list A) :
  zip_with g l (map f l) = map (fun x => g x (f x)) l.
Proof. induction l as [|x l IH]; simpl; [reflexivity|]. rewrite IH. reflexivity. Qed.

Lemma zip_with_andb_map {A} (f g : A -> bool) (l : list A) :
  zip_with andb (map f l) (map g l) = map (fun x => f x && g x) l.
Proof. induction l as [|x l IH]; simpl; [reflexivity|]. rewrite IH. reflexivity. Qed.

Lemma filter_zip_map {A} (p : A -> bool) (l : list A) :
  map fst (List.filter snd (zip l (map p l))) = List.filter p l.
Proof.
  induction l as [|x l IH]; simpl; [reflexivity|].
  destruct (p x); simpl; rewrite IH; reflexivity.
Qed.

Lemma select_and_parse_eq (df : frame) :
  select_and_parse df =
    if forallb (has_col df) KEEP_COLS
    then Some {| header := KEEP_COLS;
                 rows := map (fun r => parse_row (proj_row r)) (rows df) |}
    else None.
Proof.
  unfold select_and_parse, getitem_cols.
  destruct (forallb (has_col df) KEEP_COLS); [|reflexivity]. simpl.
  unfold column, setitem. simpl.
  rewrite map_map, zip_with_map_same. unfold parse_row.
  rewrite map_map. reflexivity.
Qed.

Lemma filter_and_enrich_eq (rs : list row) (d : date) :
  filter_and_enrich {| header := KEEP_COLS; rows := rs |} d =
    match previous_week_window d with
    | Some (start, end_) =>
        if frame_raises rs then None
        else Some {| header := OUT_COLS;
                     rows := map enrich_row (List.filter (keep_row start end_) rs) |}
    | None => None
    end.
Proof.
  unfold filter_and_enrich.
  destruct (previous_week_window d) as [[start end_]|]; [|reflexivity].
  cbn [mbind option_bind].
  assert (C1 : column {| header := KEEP_COLS; rows := rs |} c_Close_Date
               = Some (map (fun r => row_get r c_Close_Date) rs)) by reflexivity.
  assert (C2 : column {| header := KEEP_COLS; rows := rs |} c_Import_Type
               = Some (map (fun r => row_get r c_Import_Type) rs)) by reflexivity.
  rewrite C1. cbn [mbind option_bind]. unfold frame_raises, between_col.
  destruct (all_nat_column _); [reflexivity|]. cbn [orb mbind option_bind].
  rewrite C2. cbn [mbind option_bind]. unfold startswith_col.
  destruct (all_nan_column _); [reflexivity|]. cbn [mbind option_bind].
  unfold column, setitem, bool_index. simpl.
  assert (Hm : forall (f1 f2 f3 : cell -> bool) c1 c2 c3,
             zip_with andb (zip_with andb (map f1 (map (fun r => row_get r c1) rs))
                                          (map f2 (map (fun r => row_get r c2) rs)))
                           (map f3 (map (fun r => row_get r c3) rs))
             = map (fun r => f1 (row_get r c1) && f2 (row_get r c2) && f3 (row_get r c3)) rs).
  { intros. rewrite !map_map, !zip_with_andb_map. reflexivity. }
  rewrite Hm, filter_zip_map.
  rewrite !map_map, zip_with_map_same. simpl.
  rewrite zip_with_map_same, map_map. reflexivity.
Qed.

Lemma load_and_filter_eq (df : frame) (d : date) :
  load_and_filter df d =
    if forallb (has_col df) KEEP_COLS
    then match previous_week_window d with
         | Some (start, end_) =>
             if frame_raises (map (fun r => parse_row (proj_row r)) (rows df)) then None
             else Some {| header := OUT_COLS;
                     rows := map enrich_row
                               (List.filter (keep_row start end_)
                                  (map (fun r => parse_row (proj_row r)) (rows df))) |}
         | None => None
         end
    else None.
Proof.
  unfold load_and_filter. rewrite select_and_parse_eq.
  destruct (forallb (has_col df) KEEP_COLS); [|reflexivity]. simpl.
  apply filter_and_enrich_eq.
Qed.

Lemma enrich_row_get (r : row) (c : pystr) :
  pystr_eqb c_BL_CAT c = false -> pystr_eqb c_ImporterShort c = false ->
  row_get (enrich_row r) c = row_get r c.
Proof. intros H1 H2. unfold enrich_row. rewrite !row_get_set, H1, H2. reflexivity. Qed.

Lemma in_allowed_cases (i : pystr) :
  existsb (pystr_eqb i) ALLOWED_IMPORTERS = true ->
  i = u8 "Andrea Sergi" \/ i = u8 "Enrico Radaelli" \/
  i = u8 "Alessia Pellegrino" \/ i = u8 "Andrea Pedroli".
Proof.
  intros H. apply existsb_exists in H as [x [Hx E]]. apply pystr_eqb_eq in E. subst x.
  unfold ALLOWED_IMPORTERS in Hx. simpl in Hx. intuition.
Qed.

Lemma in_load_and_filter (df : frame) (d : date) (out : frame) (r : row) :
  load_and_filter df d = Some out -> In r (rows out) ->
  exists start end_ x,
    previous_week_window d = Some (start, end_) /\
    r = enrich_row x /\ keep_row start end_ x = true /\
    In x (map (fun r0 => parse_row (proj_row r0)) (rows df)).
Proof.
  rewrite load_and_filter_eq. intros H Hr.
  destruct (forallb (has_col df) KEEP_COLS); [|discriminate].
  destruct (previous_week_window d) as [[start end_]|]; [|discriminate].
  destruct (frame_raises _); [discriminate|].
  injection H as <-. simpl in Hr.
  apply in_map_iff in Hr as [x [<- Hx]]. apply filter_In in Hx as [Hx Hk].
  exists start, end_, x. auto.
Qed.

(* ------------------------------------------------------------------ *)
(** ** The filters *)

(** C1.  Every row [load_and_filter] returns has a Close Date inside the
    previous-week window (both ends included), an Import Type starting
    with "Complete" or "No Importation", and one of the four allowed
    importers; and the rows returned are exactly the input rows passing
    all three tests, in input order (with the two derived columns), so
    a row failing a test is not returned. *)
Theorem load_and_filter_filters (df : frame) (d : date) (out : frame)
  (H : load_and_filter df d = Some out) :
  exists start end_,
    previous_week_window d = Some (start, end_) /\
    rows out = map enrich_row
                 (List.filter (keep_row start end_)
                    (map (fun r => parse_row (proj_row r)) (rows df))) /\
    forall r, In r (rows out) ->
      (exists cd, row_get r c_Close_Date = CDate cd /\ start <= cd <= end_) /\
      (exists t, row_get r c_Import_Type = CStr t /\
                 (py_startswith t (u8 "Complete") = true \/
                  py_startswith t (u8 "No Importation") = true)) /\
      (exists i, row_get r c_Importer = CStr i /\ In i ALLOWED_IMPORTERS).
Proof.
  pose proof H as H0. rewrite load_and_filter_eq in H0.
  destruct (forallb (has_col df) KEEP_COLS); [|discriminate].
  destruct (previous_week_window d) as [[start end_]|] eqn:Ew; [|discriminate].
  destruct (frame_raises _); [discriminate|].
  injection H0 as <-. exists start, end_. split; [reflexivity|]. split; [reflexivity|].
  intros r Hr. simpl in Hr.
  apply in_map_iff in Hr as [x [<- Hx]]. apply filter_In in Hx as [_ Hk].
  unfold keep_row in Hk. rewrite !andb_true_iff in Hk. destruct Hk as [[Hb Ht] Hi].
  rewrite !enrich_row_get by reflexivity.
  split; [|split].
  - destruct (row_get x c_Close_Date) as [| |cd|]; try discriminate.
    simpl in Hb. rewrite andb_true_iff, !Z.leb_le in Hb. eauto.
  - destruct (row_get x c_Import_Type) as [t| | |]; try discriminate.
    simpl in Ht. rewrite orb_true_iff in Ht. eauto.
  - destruct (row_get x c_Importer) as [i| | |]; try discriminate.
    unfold isin_allowed in Hi. apply existsb_exists in Hi as [y [Hy E]].
    apply pystr_eqb_eq in E. subst y. eauto.
Qed.

Lemma load_and_filter_filters_witness :
  exists out, load_and_filter sample (ymd2ord 2025 7 16) = Some out /\
  List.length (rows out) = 1%nat /\
  exists start end_,
    previous_week_window (ymd2ord 2025 7 16) = Some (start, end_) /\
    rows out = map enrich_row
                 (List.filter (keep_row start end_)
                    (map (fun r => parse_row (proj_row r)) (rows sample))) /\
    forall r, In r (rows out) ->
      (exists cd, row_get r c_Close_Date = CDate cd /\ start <= cd <= end_) /\
      (exists t, row_get r c_Import_Type = CStr t /\
                 (py_startswith t (u8 "Complete") = true \/
                  py_startswith t (u8 "No Importation") = true)) /\
      (exists i, row_get r c_Importer = CStr i /\ In i ALLOWED_IMPORTERS).
Proof.
  eexists. split; [vm_compute; reflexivity|]. split; [vm_compute; reflexivity|].
  apply load_and_filter_filters. vm_compute. reflexivity.
Defined.

(** C9.  The allow-list is the key set of [IMPORTER_SHORT]; so every row
    [load_and_filter] returns has an Importer the alias map knows, and a
    non-missing ImporterShort that is one of the four aliases. *)
Theorem load_and_filter_importer_alias (df : frame) (d : date) (out : frame)
  (H : load_and_filter df d = Some out) :
  (forall s, In s ALLOWED_IMPORTERS <-> In s (map fst IMPORTER_SHORT)) /\
  forall r, In r (rows out) ->
    exists i a, row_get r c_Importer = CStr i /\ dict_get IMPORTER_SHORT i = Some a /\
                row_get r c_ImporterShort = CStr a /\ In a ALIASES.
Proof.
  split.
  { intros s0. unfold ALLOWED_IMPORTERS, IMPORTER_SHORT. simpl. intuition. }
  intros r Hr.
  destruct (in_load_and_filter df d out r H Hr) as (start & end_ & x & _ & -> & Hk & _).
  unfold keep_row in Hk. rewrite !andb_true_iff in Hk. destruct Hk as [_ Hi].
  unfold enrich_row. rewrite !row_get_set. simpl.
  destruct (row_get x c_Importer) as [i| | |]; try discriminate.
  unfold isin_allowed in Hi. exists i.
  apply in_allowed_cases in Hi as [ -> | [ -> | [ -> | -> ]]];
    eexists; (split; [reflexivity|]); (split; [vm_compute; reflexivity|]);
    (split; [vm_compute; reflexivity|]); unfold ALIASES; simpl; auto.
Qed.

Lemma load_and_filter_importer_alias_witness :
  exists out, load_and_filter sample (ymd2ord 2025 7 16) = Some out /\
  List.length (rows out) = 1%nat /\
  forall r, In r (rows out) ->
    exists i a, row_get r c_Importer = CStr i /\ dict_get IMPORTER_SHORT i = Some a /\
                row_get r c_ImporterShort = CStr a /\ In a ALIASES.
Proof.
  eexists. split; [vm_compute; reflexivity|]. split; [vm_compute; reflexivity|].
  apply (load_and_filter_importer_alias sample (ymd2ord 2025 7 16)). vm_compute. reflexivity.
Defined.

(* ------------------------------------------------------------------ *)
(** ** Close Dates that do not parse *)

Lemma parse_row_close (r : row) :
  row_get (parse_row (proj_row r)) c_Close_Date = close_date_cell (row_get r c_Close_Date).
Proof. reflexivity. Qed.

Lemma proj_row_get (r : row) (c : pystr) :
  In c KEEP_COLS -> row_get (proj_row r) c = row_get r c.
Proof.
  intros Hc. unfold KEEP_COLS in Hc.
  destruct Hc as [<-|[<-|[<-|[<-|[<-|[<-|[]]]]]]]; vm_compute; reflexivity.
Qed.

Lemma has_keep_cols (hdr : list pystr) (rs : list row) :
  (forall c, In c KEEP_COLS -> In c hdr) ->
  forallb (has_col {| header := hdr; rows := rs |}) KEEP_COLS = true.
Proof.
  intros H. apply forallb_forall. intros c Hc. unfold has_col. cbn [header].
  apply existsb_exists. exists c. split; [apply H, Hc | apply pystr_eqb_refl].
Qed.

Lemma parse_row_import_type (r : row) :
  row_get (parse_row (proj_row r)) c_Import_Type = row_get r c_Import_Type.
Proof.
  unfold parse_row. rewrite row_get_set.
  replace (pystr_eqb c_Close_Date c_Import_Type) with false by (vm_compute; reflexivity).
  apply proj_row_get. unfold KEEP_COLS. right. right. right. left. vm_compute. reflexivity.
Qed.

Lemma all_column_false (p : cell -> bool) (col : list cell) (c : cell) :
  In c col -> p c = false -> forallb p col = false.
Proof.
  intros Hc Hp. apply not_true_iff_false. intros H.
  rewrite forallb_forall in H. rewrite (H c Hc) in Hp. discriminate.
Qed.

Lemma frame_raises_false (prs : list row) :
  (exists x, In x prs /\ row_get x c_Close_Date <> CNaT) ->
  (exists x, In x prs /\ row_get x c_Import_Type <> CNa) ->
  frame_raises prs = false.
Proof.
  intros [x [Hx Hc]] [y [Hy Hi]]. unfold frame_raises, all_nat_column, all_nan_column.
  destruct prs as [|z t]; [contradiction|]. cbn [map].
  assert (A : forallb is_nat_cell (map (fun r => row_get r c_Close_Date) (z :: t)) = false).
  { apply (all_column_false _ _ (row_get x c_Close_Date)); [apply (in_map (fun r => row_get r c_Close_Date)), Hx|].
    destruct (row_get x c_Close_Date); cbn; congruence. }
  assert (B : forallb is_nan_cell (map (fun r => row_get r c_Import_Type) (z :: t)) = false).
  { apply (all_column_false _ _ (row_get y c_Import_Type)); [apply (in_map (fun r => row_get r c_Import_Type)), Hy|].
    destruct (row_get y c_Import_Type); cbn; congruence. }
  cbn [map] in A, B. rewrite A, B. reflexivity.
Qed.

Lemma frame_raises_all_nat (prs : list row) :
  prs <> [] -> Forall (fun x => row_get x c_Close_Date = CNaT) prs -> frame_raises prs = true.
Proof.
  intros Hn Hf. unfold frame_raises, all_nat_column.
  destruct prs as [|z t]; [contradiction|]. cbn [map].
  apply orb_true_intro. left.
  change (forallb is_nat_cell (map (fun r => row_get r c_Close_Date) (z :: t)) = true).
  apply forallb_forall. intros c Hc. apply in_map_iff in Hc as [x [<- Hx]].
  rewrite List.Forall_forall in Hf. rewrite (Hf x Hx). reflexivity.
Qed.




(* ------------------------------------------------------------------ *)
(** ** Re-applying the filter to its own output *)

Lemma digits_rev_digits (fuel : nat) (n : Z) :
  Forall (fun c => is_digit c = true) (digits_rev fuel n).
Proof.
  revert n; induction fuel as [|fuel IH]; intros n; simpl; constructor.
  - unfold is_digit. pose proof (Z.mod_pos_bound n 10). apply andb_true_iff; lia.
  - destruct (n <? 10); [constructor | apply IH].
Qed.


Lemma py_str_int_head (n : Z) : not_letter_head (py_str_int n).
Proof.
  unfold py_str_int. destruct (n <? 0).
  - eexists _, _. split; [reflexivity | lia].
  - pose proof (digits_rev_digits (S (Z.to_nat n)) n) as HF.
    destruct (rev (digits_rev (S (Z.to_nat n)) n)) as [|c t] eqn:E.
    + apply (f_equal (@List.length Z)) in E. rewrite List.length_rev in E. discriminate.
    + exists c, t. split; [reflexivity|].
      assert (Hc : In c (digits_rev (S (Z.to_nat n)) n)).
      { apply List.in_rev. rewrite E. left. reflexivity. }
      rewrite List.Forall_forall in HF. specialize (HF c Hc).
      unfold is_digit in HF. apply andb_true_iff in HF as [_ HF]. lia.
Qed.

Lemma zpad_head (w : nat) (n : Z) : not_letter_head (zpad w n).
Proof.
  unfold zpad. destruct (w - List.length (py_str_int n))%nat as [|k].
  - apply py_str_int_head.
  - eexists _, _. split; [reflexivity | lia].
Qed.

Lemma date_iso_head (d : date) : not_letter_head (date_iso d).
Proof.
  unfold date_iso. destruct (ord2ymd d) as [[y m] dd].
  destruct (zpad_head 4 y) as (c & t & -> & Hc). eexists _, _. split; [reflexivity | exact Hc].
Qed.

Lemma m_bind_nil {A B} (m : Matcher A) (k : A -> Matcher B) (s : pystr) :
  m s = [] -> m_bind m k s = [].
Proof. intros H. unfold m_bind. rewrite H. reflexivity. Qed.

Lemma m_month_from_no_letter (names : list pystr) (i c : Z) (t : pystr) :
  c <= 57 ->
  forallb (fun w => match w with x :: _ => (97 <=? x) && (x <=? 122) | [] => false end) names = true ->
  m_month_from i names (c :: t) = [].
Proof.
  intros Hc. revert i; induction names as [|w names IH]; intros i H; [reflexivity|].
  simpl in H. apply andb_true_iff in H as [Hw H].
  destruct w as [|x w]; [discriminate|]. apply andb_true_iff in Hw as [H1 H2].
  apply Z.leb_le in H1. apply Z.leb_le in H2.
  assert (Hw0 : m_word (x :: w) (c :: t) = []).
  { cbn [m_word]. apply m_bind_nil. unfold m_letter, m_char.
    destruct (Z.eqb_spec c x); [lia|]. destruct (Z.eqb_spec c (x - 32)); [lia|].
    reflexivity. }
  cbn [m_month_from]. unfold m_alt. rewrite IH by exact H.
  rewrite m_bind_nil by exact Hw0. reflexivity.
Qed.

Lemma parse_close_date_no_letter (s : pystr) :
  not_letter_head s -> parse_close_date s = None.
Proof.
  intros (c & t & -> & Hc). unfold parse_close_date.
  assert (H : m_close_fmt (c :: t) = []).
  { unfold m_close_fmt. apply m_bind_nil. unfold m_b.
    apply m_month_from_no_letter; [exact Hc | vm_compute; reflexivity]. }
  rewrite H. reflexivity.
Qed.

Lemma close_date_cell_date (cd : date) : close_date_cell (CDate cd) = CNaT.
Proof.
  unfold close_date_cell. cbn [py_str].
  destruct (date_iso_head cd) as (c & t & E & Hc). rewrite E.
  rewrite parse_close_date_no_letter; [reflexivity|].
  exists c, (replace_char 8239 32 t). split; [|exact Hc].
  unfold replace_char. simpl. destruct (Z.eqb_spec c 8239); [lia | reflexivity].
Qed.

Lemma filter_all_false {A} (p : A -> bool) (l : list A) :
  (forall x, In x l -> p x = false) -> List.filter p l = [].
Proof.
  induction l as [|x l IH]; intros H; simpl; [reflexivity|].
  rewrite (H x (or_introl eq_refl)). apply IH. intros y Hy. apply H. right. exact Hy.
Qed.

Lemma getitem_keep_cols (out : frame) :
  header out = OUT_COLS ->
  getitem_cols out KEEP_COLS = Some {| header := KEEP_COLS; rows := map proj_row (rows out) |}.
Proof.
  intros Hh. unfold getitem_cols, has_col. rewrite Hh.
  replace (forallb (fun c => existsb (pystr_eqb c) OUT_COLS) KEEP_COLS) with true
    by (vm_compute; reflexivity).
  reflexivity.
Qed.




(* ------------------------------------------------------------------ *)
(** ** The counts of [build_messages] *)

(** decide [pystr_eqb] between two closed strings *)
Ltac eval_pystr_eqb :=
  repeat match goal with
  | |- context [pystr_eqb ?x ?y] =>
      let b := eval vm_compute in (pystr_eqb x y) in change (pystr_eqb x y) with b
  end.

Lemma dict_get_in (dct : list (pystr * pystr)) (k v : pystr) :
  dict_get dct k = Some v -> In v (map snd dct).
Proof.
  induction dct as [|[k' v'] t IH]; simpl; [discriminate|].
  destruct (pystr_eqb k k'); [intros [= <-]; left; reflexivity | intros H; right; auto].
Qed.

Lemma business_line_cat_cases (x : cell) :
  business_line_cat x = v_Facility \/ business_line_cat x = v_Individual.
Proof.
  unfold business_line_cat.
  destruct (dict_get BUSINESS_LINE_MAP _) as [v|] eqn:E; [|right; reflexivity].
  apply dict_get_in in E. unfold BUSINESS_LINE_MAP in E. simpl in E.
  destruct E as [<-|[<-|[<-|[<-|[<-|[<-|[]]]]]]];
    [right|right|left|left|left|left]; reflexivity.
Qed.

Lemma load_and_filter_row_cats (df : frame) (d : date) (out : frame) (r : row) :
  load_and_filter df d = Some out -> In r (rows out) ->
  (row_get r c_BL_CAT = CStr v_Facility \/ row_get r c_BL_CAT = CStr v_Individual) /\
  (exists a, In a ALIASES /\ row_get r c_ImporterShort = CStr a).
Proof.
  intros H Hr.
  destruct (in_load_and_filter df d out r H Hr) as (start & end_ & x & _ & -> & Hk & _).
  unfold keep_row in Hk. rewrite !andb_true_iff in Hk. destruct Hk as [_ Hi].
  unfold enrich_row. rewrite !row_get_set. eval_pystr_eqb. cbn iota.
  split.
  - destruct (business_line_cat_cases (row_get x c_Business_Line)) as [-> | ->]; auto.
  - destruct (row_get x c_Importer) as [i| | |]; try discriminate.
    unfold isin_allowed in Hi.
    apply in_allowed_cases in Hi as [ -> | [ -> | [ -> | -> ]]];
      eexists; (split; [|vm_compute; reflexivity]); unfold ALIASES; simpl; auto.
Qed.

Lemma count_value_cons (a : pystr) (c : cell) (col : list cell) :
  count_value a (c :: col) = (if cell_eqb c (CStr a) then 1 else 0) + count_value a col.
Proof.
  unfold count_value. simpl. destruct (cell_eqb c (CStr a)); simpl List.length; lia.
Qed.

Lemma count_categories (col : list cell) :
  (forall c, In c col -> c = CStr v_Facility \/ c = CStr v_Individual) ->
  count_value v_Facility col + count_value v_Individual col = Z.of_nat (List.length col).
Proof.
  induction col as [|c col IH]; intros H; [reflexivity|].
  rewrite !count_value_cons.
  assert (IH' := IH (fun c' Hc' => H c' (or_intror Hc'))).
  destruct (H c (or_introl eq_refl)) as [-> | ->]; cbn [cell_eqb]; eval_pystr_eqb;
    cbn iota; simpl List.length; lia.
Qed.

Lemma count_aliases (col : list cell) :
  (forall c, In c col -> exists a, In a ALIASES /\ c = CStr a) ->
  count_value a_Alessia col + (count_value a_Andrea col +
    (count_value a_Enrico col + (count_value a_Pedro col + 0))) = Z.of_nat (List.length col).
Proof.
  induction col as [|c col IH]; intros H; [reflexivity|].
  rewrite !count_value_cons.
  assert (IH' := IH (fun c' Hc' => H c' (or_intror Hc'))).
  destruct (H c (or_introl eq_refl)) as (a & Ha & ->).
  unfold ALIASES in Ha.
  destruct Ha as [<-|[<-|[<-|[<-|[]]]]]; cbn [cell_eqb]; eval_pystr_eqb;
    cbn iota; simpl List.length; lia.
Qed.

Lemma column_out (df : frame) (d : date) (out : frame) (c : pystr) :
  load_and_filter df d = Some out -> In c OUT_COLS ->
  column out c = Some (map (fun r => row_get r c) (rows out)).
Proof.
  intros H Hc. rewrite load_and_filter_eq in H.
  destruct (forallb (has_col df) KEEP_COLS); [|discriminate].
  destruct (previous_week_window d) as [[start end_]|]; [|discriminate].
  destruct (frame_raises _); [discriminate|].
  injection H as <-. unfold column, has_col. cbn [header rows].
  replace (existsb (pystr_eqb c) OUT_COLS) with true; [reflexivity|].
  symmetry. apply existsb_exists. exists c. split; [exact Hc | apply pystr_eqb_refl].
Qed.

(** C4.  On a table [load_and_filter] returns, with [T] rows:
    [build_messages] counts [F] Facility and [I] Individual rows with
    [F + I = T] (a category absent from the table counts zero), and
    counts the importers on exactly the aliases Alessia, Andrea,
    Enrico, Pedro, in that order (an absent alias counts zero), these
    four counts summing to [T]; the report it renders carries these
    values. *)
Theorem build_messages_counts (df : frame) (d : date) (out : frame)
  (H : load_and_filter df d = Some out) :
  exists f i t imp,
    counts_of out = Some (f, i, t, imp) /\
    t = Z.of_nat (List.length (rows out)) /\
    f + i = t /\
    map fst imp = ALIASES /\
    foldr Z.add 0 (map snd imp) = t /\
    (forall r, report_of out = Some r ->
       tot_total r = t /\ facility r = f /\ individual r = i /\
       map (imp_count r) ALIASES = map snd imp).
Proof.
  assert (Hbl := column_out df d out c_BL_CAT H ltac:(vm_compute; tauto)).
  assert (His := column_out df d out c_ImporterShort H ltac:(vm_compute; tauto)).
  set (bl := map (fun r => row_get r c_BL_CAT) (rows out)) in *.
  set (isr := map (fun r => row_get r c_ImporterShort) (rows out)) in *.
  set (imp := map (fun a => (a, count_value a isr)) ALIASES).
  assert (Hc : counts_of out = Some (count_value v_Facility bl, count_value v_Individual bl,
                                     Z.of_nat (List.length (rows out)), imp)).
  { unfold counts_of. rewrite Hbl, His. reflexivity. }
  exists (count_value v_Facility bl), (count_value v_Individual bl),
         (Z.of_nat (List.length (rows out))), imp.
  split; [exact Hc|]. split; [reflexivity|].
  split; [|split; [reflexivity|split]].
  - rewrite count_categories.
    + subst bl. rewrite List.length_map. reflexivity.
    + intros c Hcin. subst bl. apply in_map_iff in Hcin as [r [<- Hr]].
      apply (load_and_filter_row_cats df d out r H Hr).
  - subst imp. cbn [map foldr snd ALIASES]. rewrite count_aliases.
    + subst isr. rewrite List.length_map. reflexivity.
    + intros c Hcin. subst isr. apply in_map_iff in Hcin as [r [<- Hr]].
      destruct (load_and_filter_row_cats df d out r H Hr) as [_ (a & Ha & E)].
      eauto.
  - intros r Hr. unfold report_of in Hr. rewrite Hc in Hr. cbn in Hr.
    destruct (facility_pairs out) as [fac|]; [|discriminate].
    cbn in Hr. injection Hr as <-. cbn [tot_total facility individual].
    split; [reflexivity|]. split; [reflexivity|]. split; [reflexivity|].
    unfold imp_count. cbn [imp_counts]. subst imp.
    unfold ALIASES. cbn [map dict_get_Z fst snd]. eval_pystr_eqb. reflexivity.
Qed.

Lemma build_messages_counts_witness :
  exists out, load_and_filter sample (ymd2ord 2025 7 16) = Some out /\
  List.length (rows out) = 1%nat /\
  exists f i t imp,
    counts_of out = Some (f, i, t, imp) /\
    t = Z.of_nat (List.length (rows out)) /\
    f + i = t /\
    map fst imp = ALIASES /\
    foldr Z.add 0 (map snd imp) = t /\
    (forall r, report_of out = Some r ->
       tot_total r = t /\ facility r = f /\ individual r = i /\
       map (imp_count r) ALIASES = map snd imp).
Proof.
  eexists. split; [vm_compute; reflexivity|]. split; [vm_compute; reflexivity|].
  apply (build_messages_counts sample (ymd2ord 2025 7 16)). vm_compute. reflexivity.
Defined.

(* ------------------------------------------------------------------ *)
(** ** The facility links *)

Lemma cell_eqb_eq (a b : cell) : cell_eqb a b = true -> a = b.
Proof.
  destruct a, b; cbn [cell_eqb]; try discriminate.
  - intros E. apply pystr_eqb_eq in E. subst. reflexivity.
  - intros E. apply Z.eqb_eq in E. subst. reflexivity.
Qed.

Lemma cell_eqb_refl (a : cell) : is_na a = false -> cell_eqb a a = true.
Proof.
  destruct a; cbn; try discriminate; intros _; [apply pystr_eqb_refl | apply Z.eqb_refl].
Qed.

Lemma facility_pairs_eq (df : frame) (fac : list (cell * cell)) :
  facility_pairs df = Some fac ->
  sort_values_name
    (drop_duplicates_url []
       (List.filter (fun p => negb (is_na p.1) && negb (is_na p.2))
          (map (fun r => (row_get r c_Ticket_Name, row_get r c_Url))
             (List.filter (fun r => cell_eqb (row_get r c_BL_CAT) (CStr v_Facility))
                (rows df))))) = Some fac.
Proof.
  unfold facility_pairs, column.
  destruct (has_col df c_BL_CAT); [|discriminate]. cbn [mbind option_bind].
  unfold getitem_cols.
  match goal with |- context [if ?b then _ else _] => destruct b end; [|discriminate].
  cbn [mbind option_bind rows bool_index].
  rewrite (map_map (fun r => row_get r c_BL_CAT)), filter_zip_map, map_map.
  cbn [row_get map]. eval_pystr_eqb. cbn iota.
  tauto.
Qed.

Lemma pystr_ltb_asym (a b : pystr) : pystr_ltb a b = true -> pystr_ltb b a = false.
Proof.
  revert b; induction a as [|x a IH]; intros [|y b]; cbn [pystr_ltb]; try discriminate; auto.
  rewrite !orb_true_iff, !andb_true_iff, !Z.ltb_lt, !Z.eqb_eq.
  intros [Hlt | [-> Hab]].
  - destruct (Z.ltb_spec y x); [lia|]. destruct (Z.eqb_spec y x); [lia|]. reflexivity.
  - rewrite Z.ltb_irrefl, Z.eqb_refl, (IH b Hab). reflexivity.
Qed.

Lemma name_leb_total (a b : cell) : name_leb a b = false -> name_leb b a = true.
Proof.
  destruct a, b; cbn [name_leb]; try discriminate.
  - intros H. apply negb_false_iff in H. rewrite (pystr_ltb_asym _ _ H). reflexivity.
  - intros H. apply Z.leb_gt in H. apply Z.leb_le. lia.
Qed.


Lemma insert_by_name_perm (p : cell * cell) (l : list (cell * cell)) :
  Permutation (insert_by_name p l) (p :: l).
Proof.
  induction l as [|q l IH]; cbn [insert_by_name]; [reflexivity|].
  destruct (name_leb p.1 q.1); [reflexivity|].
  rewrite IH. apply perm_swap.
Qed.

Lemma insert_by_name_hd (a p : cell * cell) (l : list (cell * cell)) :
  HdRel name_le a l -> name_le a p -> HdRel name_le a (insert_by_name p l).
Proof.
  intros Hl Hp. destruct l as [|q l]; cbn [insert_by_name].
  - constructor. exact Hp.
  - destruct (name_leb p.1 q.1); constructor; [exact Hp|]. inversion Hl; assumption.
Qed.

Lemma insert_by_name_sorted (p : cell * cell) (l : list (cell * cell)) :
  Sorted name_le l -> Sorted name_le (insert_by_name p l).
Proof.
  induction l as [|q l IH]; intros Hs; cbn [insert_by_name].
  - repeat constructor.
  - destruct (name_leb p.1 q.1) eqn:E.
    + constructor; [exact Hs|]. constructor. exact E.
    + inversion Hs as [|? ? Hs' Hhd]; subst. constructor; [apply IH, Hs'|].
      apply insert_by_name_hd; [exact Hhd|]. apply name_leb_total, E.
Qed.

Lemma insertion_sort_spec (l : list (cell * cell)) :
  Permutation (foldr insert_by_name [] l) l /\ Sorted name_le (foldr insert_by_name [] l).
Proof.
  induction l as [|p l [IHp IHs]]; cbn [foldr]; [split; constructor|].
  split.
  - rewrite insert_by_name_perm. apply perm_skip, IHp.
  - apply insert_by_name_sorted, IHs.
Qed.

Lemma drop_duplicates_url_sub (seen : list cell) (l : list (cell * cell)) (p : cell * cell) :
  In p (drop_duplicates_url seen l) -> In p l.
Proof.
  revert seen; induction l as [|q l IH]; intros seen; cbn [drop_duplicates_url]; [simpl; tauto|].
  destruct (existsb (cell_eqb q.2) seen).
  - intros H. right. eapply IH, H.
  - intros [<-|H]; [left; reflexivity | right; eapply IH, H].
Qed.

Lemma drop_duplicates_url_unseen (seen : list cell) (l : list (cell * cell)) (p : cell * cell) :
  In p (drop_duplicates_url seen l) -> existsb (cell_eqb p.2) seen = false.
Proof.
  revert seen; induction l as [|q l IH]; intros seen; cbn [drop_duplicates_url]; [simpl; tauto|].
  destruct (existsb (cell_eqb q.2) seen) eqn:Eq.
  - apply IH.
  - intros [<-|H]; [exact Eq|].
    apply IH in H. cbn [existsb] in H. apply orb_false_iff in H. tauto.
Qed.

Lemma drop_duplicates_url_nodup (seen : list cell) (l : list (cell * cell)) :
  (forall p, In p l -> is_na p.2 = false) ->
  List.NoDup (map snd (drop_duplicates_url seen l)).
Proof.
  revert seen; induction l as [|q l IH]; intros seen Hna; cbn [drop_duplicates_url].
  - constructor.
  - assert (Hna' : forall p, In p l -> is_na p.2 = false) by (intros; apply Hna; right; auto).
    destruct (existsb (cell_eqb q.2) seen); [apply IH, Hna'|].
    cbn [map]. constructor; [|apply IH, Hna'].
    intros Hin. apply in_map_iff in Hin as [p [Ep Hp]].
    apply drop_duplicates_url_unseen in Hp. cbn [existsb] in Hp.
    apply orb_false_iff in Hp as [Hp _]. rewrite Ep in Hp.
    rewrite cell_eqb_refl in Hp; [discriminate|]. apply Hna. left. reflexivity.
Qed.

Lemma drop_duplicates_url_first (seen : list cell) (pre post : list (cell * cell))
  (p : cell * cell) :
  is_na p.2 = false -> existsb (cell_eqb p.2) seen = false ->
  (forall q, In q pre -> q.2 <> p.2) ->
  In p (drop_duplicates_url seen (pre ++ p :: post)).
Proof.
  intros Hna. revert seen; induction pre as [|q pre IH]; intros seen Hs Hpre.
  - cbn [app drop_duplicates_url]. rewrite Hs. left. reflexivity.
  - cbn [app drop_duplicates_url].
    assert (Hpre' : forall q', In q' pre -> q'.2 <> p.2) by (intros; apply Hpre; right; auto).
    destruct (existsb (cell_eqb q.2) seen); [apply IH; assumption|].
    right. apply IH; [|exact Hpre'].
    cbn [existsb]. rewrite Hs, orb_false_r.
    destruct (cell_eqb p.2 q.2) eqn:E; [|reflexivity].
    apply cell_eqb_eq in E. exfalso. apply (Hpre q (or_introl eq_refl)). auto.
Qed.

Lemma drop_duplicates_url_in (seen : list cell) (l : list (cell * cell)) (p : cell * cell) :
  (forall q, In q l -> is_na q.2 = false) ->
  In p (drop_duplicates_url seen l) ->
  exists pre post, l = pre ++ p :: post /\ forall q, In q pre -> q.2 <> p.2.
Proof.
  revert seen; induction l as [|q l IH]; intros seen Hna; cbn [drop_duplicates_url]; [simpl; tauto|].
  assert (Hna' : forall q', In q' l -> is_na q'.2 = false) by (intros; apply Hna; right; auto).
  assert (Hq : is_na q.2 = false) by (apply Hna; left; reflexivity).
  destruct (existsb (cell_eqb q.2) seen) eqn:Eq.
  - intros H. destruct (IH seen Hna' H) as (pre & post & -> & Hpre).
    exists (q :: pre), post. split; [reflexivity|].
    intros q' [<-|Hq']; [|auto].
    intros Equ. apply drop_duplicates_url_unseen in H. rewrite <- Equ, Eq in H. discriminate.
  - intros [<-|H].
    + exists [], l. split; [reflexivity | intros ? []].
    + destruct (IH _ Hna' H) as (pre & post & -> & Hpre).
      exists (q :: pre), post. split; [reflexivity|].
      intros q' [<-|Hq']; [|auto].
      intros Equ. apply drop_duplicates_url_unseen in H. cbn [existsb] in H.
      rewrite <- Equ, cell_eqb_refl in H by exact Hq. discriminate.
Qed.

(** C6.  The facility links [build_messages] lists: each is the
    (Ticket Name, Url) pair of a row whose category is Facility, with
    neither field missing; a pair is listed exactly when it is the
    first, in table order, of the candidate pairs with its Url (so no
    two links share a Url); and the list is sorted by Ticket Name,
    ascending. *)
Theorem facility_links_spec (df : frame) (fac : list (cell * cell))
  (H : facility_pairs df = Some fac) :
  let cand :=
    List.filter (fun p => negb (is_na p.1) && negb (is_na p.2))
      (map (fun r => (row_get r c_Ticket_Name, row_get r c_Url))
         (List.filter (fun r => cell_eqb (row_get r c_BL_CAT) (CStr v_Facility)) (rows df))) in
  (forall p, In p fac ->
     exists r, In r (rows df) /\ row_get r c_BL_CAT = CStr v_Facility /\
               p = (row_get r c_Ticket_Name, row_get r c_Url) /\
               is_na p.1 = false /\ is_na p.2 = false) /\
  (forall p, In p fac <->
     exists pre post, cand = pre ++ p :: post /\ forall q, In q pre -> q.2 <> p.2) /\
  List.NoDup (map snd fac) /\
  Sorted name_le fac.
Proof.
  intros cand. apply facility_pairs_eq in H. fold cand in H.
  unfold sort_values_name in H.
  destruct (_ || _); [|discriminate]. injection H as <-.
  destruct (insertion_sort_spec (drop_duplicates_url [] cand)) as [Hperm Hsorted].
  set (fac := foldr insert_by_name [] (drop_duplicates_url [] cand)) in *.
  assert (Hna : forall q, In q cand -> is_na q.1 = false /\ is_na q.2 = false).
  { intros q Hq. subst cand. apply filter_In in Hq as [_ Hq].
    apply andb_true_iff in Hq as [H1 H2]. apply negb_true_iff in H1, H2. auto. }
  assert (Hin : forall p, In p fac <-> In p (drop_duplicates_url [] cand)).
  { intros p. split; intros Hp; [exact (Permutation_in _ Hperm Hp)|].
    exact (Permutation_in _ (Permutation_sym Hperm) Hp). }
  split; [|split; [|split]].
  - intros p Hp. apply Hin, drop_duplicates_url_sub in Hp.
    pose proof (Hna p Hp) as [Hn1 Hn2].
    subst cand. apply filter_In in Hp as [Hp _].
    apply in_map_iff in Hp as [r [<- Hr]]. apply filter_In in Hr as [Hr Hf].
    apply cell_eqb_eq in Hf. exists r. auto.
  - intros p. rewrite Hin. split.
    + apply drop_duplicates_url_in. intros q Hq. apply Hna, Hq.
    + intros (pre & post & Hc & Hpre).
      assert (Hp : In p cand) by (rewrite Hc; apply in_or_app; right; left; reflexivity).
      rewrite Hc. apply drop_duplicates_url_first; [apply Hna, Hp | reflexivity | exact Hpre].
  - apply (Permutation_NoDup (Permutation_map snd (Permutation_sym Hperm))).
    apply drop_duplicates_url_nodup. intros q Hq. apply Hna, Hq.
  - exact Hsorted.
Qed.

Lemma facility_links_spec_witness :
  exists out fac,
    load_and_filter sample_links (ymd2ord 2025 7 16) = Some out /\
    facility_pairs out = Some fac /\
    List.length (rows out) = 4%nat /\ List.length fac = 2%nat /\
    (forall p, In p fac ->
       exists r, In r (rows out) /\ row_get r c_BL_CAT = CStr v_Facility /\
                 p = (row_get r c_Ticket_Name, row_get r c_Url) /\
                 is_na p.1 = false /\ is_na p.2 = false) /\
    (forall p, In p fac <->
       exists pre post,
         List.filter (fun p => negb (is_na p.1) && negb (is_na p.2))
           (map (fun r => (row_get r c_Ticket_Name, row_get r c_Url))
              (List.filter (fun r => cell_eqb (row_get r c_BL_CAT) (CStr v_Facility))
                 (rows out))) = pre ++ p :: post /\
         forall q, In q pre -> q.2 <> p.2) /\
    List.NoDup (map snd fac) /\
    Sorted name_le fac.
Proof.
  eexists. eexists.
  split; [vm_compute; reflexivity|]. split; [vm_compute; reflexivity|].
  split; [vm_compute; reflexivity|]. split; [vm_compute; reflexivity|].
  apply (facility_links_spec _ _). vm_compute. reflexivity.
Defined.

(* ------------------------------------------------------------------ *)
(** ** An empty table *)

Lemma pystr_prefixb_app (p s : pystr) :
  pystr_prefixb p s = true -> exists post, s = p ++ post.
Proof.
  revert s; induction p as [|x p IH]; intros s H; [exists s; reflexivity|].
  destruct s as [|y s]; [discriminate|]. cbn [pystr_prefixb] in H.
  apply andb_true_iff in H as [Hx H]. apply Z.eqb_eq in Hx. subst y.
  destruct (IH s H) as [post ->]. exists post. reflexivity.
Qed.

Lemma pystr_infixb_app (p s : pystr) :
  pystr_infixb p s = true -> exists pre post, s = pre ++ p ++ post.
Proof.
  induction s as [|y s IH]; intros H; cbn [pystr_infixb] in H.
  - rewrite orb_false_r in H. destruct (pystr_prefixb_app _ _ H) as [post ->].
    exists [], post. reflexivity.
  - apply orb_true_iff in H as [H|H].
    + destruct (pystr_prefixb_app _ _ H) as [post E]. exists [], post. exact E.
    + destruct (IH H) as (pre & post & ->). exists (y :: pre), post. reflexivity.
Qed.

(** C7 (amended).  For a table with no rows but all six kept columns,
    and a reference date from 0001-01-08 on: [load_and_filter] returns
    an empty table (with the six columns and the two derived ones); for
    a reference date from 0001-01-01 to 0001-01-07 it raises
    [OverflowError] in [previous_week_window].  [build_messages] on the
    empty result reports a total, Facility and Individual
    count of 0, an importer count of 0 for each of the four aliases, no
    facility link, and renders the placeholder
    "Nessuna facility questa settimana" in both messages. *)
Theorem empty_table_report (hdr : list pystr) (d : date)
  (Hcols : forall c, In c KEEP_COLS -> In c hdr)
  (Hd : valid_date d) :
  (8 <= d -> load_and_filter {| header := hdr; rows := [] |} d = Some {| header := OUT_COLS; rows := [] |}) /\
  (d < 8 -> load_and_filter {| header := hdr; rows := [] |} d = None) /\
  (exists r, report_of {| header := OUT_COLS; rows := [] |} = Some r /\
     tot_total r = 0 /\ facility r = 0 /\ individual r = 0 /\
     map (imp_count r) ALIASES = [0; 0; 0; 0] /\ fac_links r = []) /\
  exists plain html,
    build_messages {| header := OUT_COLS; rows := [] |} = Some (plain, html) /\
    (exists pre post, plain = pre ++ NO_FACILITY_MD ++ post) /\
    (exists pre post, html = pre ++ NO_FACILITY_HTML ++ post).
Proof.
  split; [|split; [|split]].
  - intros H8. rewrite load_and_filter_eq, has_keep_cols by exact Hcols.
    rewrite previous_week_window_some by (destruct Hd; lia). reflexivity.
  - intros H8. rewrite load_and_filter_eq, has_keep_cols by exact Hcols.
    rewrite previous_week_window_none by assumption. reflexivity.
  - eexists. split; [vm_compute; reflexivity|]. vm_compute. auto.
  - eexists _, _. split; [vm_compute; reflexivity|].
    split; apply pystr_infixb_app; vm_compute; reflexivity.
Qed.

Lemma empty_table_report_witness :
  (forall c, In c KEEP_COLS -> In c (header sample)) /\
  8 <= ymd2ord 2025 7 16 <= MAXORDINAL /\
  load_and_filter {| header := header sample; rows := [] |} (ymd2ord 2025 7 16)
    = Some {| header := OUT_COLS; rows := [] |} /\
  exists plain html,
    build_messages {| header := OUT_COLS; rows := [] |} = Some (plain, html) /\
    (exists pre post, plain = pre ++ NO_FACILITY_MD ++ post) /\
    (exists pre post, html = pre ++ NO_FACILITY_HTML ++ post).
Proof.
  assert (Hc : forall c, In c KEEP_COLS -> In c (header sample)).
  { intros c Hc. unfold sample. cbn [header]. apply in_or_app. left. exact Hc. }
  assert (Hd : 8 <= ymd2ord 2025 7 16 <= MAXORDINAL) by (vm_compute; split; discriminate).
  assert (V : valid_date (ymd2ord 2025 7 16)) by (vm_compute; split; discriminate).
  destruct (empty_table_report (header sample) (ymd2ord 2025 7 16) Hc V) as [H1 [_ [_ H3]]].
  split; [exact Hc|]. split; [exact Hd|]. split; [exact (H1 (proj1 Hd)) | exact H3].
Defined.

(** C7, counterexample: with the reference date 0001-01-01 the empty
    table is not reported: [previous_week_window] raises
    [OverflowError] inside [load_and_filter]. *)
Lemma empty_table_date_min :
  (forall c, In c KEEP_COLS -> In c (header sample)) /\
  load_and_filter {| header := header sample; rows := [] |} (ymd2ord 1 1 1) = None.
Proof.
  split.
  - intros c Hc. unfold sample. cbn [header]. apply in_or_app. left. exact Hc.
  - vm_compute. reflexivity.
Qed.

(* ------------------------------------------------------------------ *)
(** ** The caller's DataFrame *)

Ltac heap_simpl :=
  repeat first
    [ rewrite lookup_insert_eq
    | rewrite lookup_insert_ne by lia
    | progress cbn [Heap.store Heap.next] ].

(** C10.  [load_and_filter] does not mutate its argument: run on the
    object at [l_df] of a store, it leaves that object, and every other
    object that existed before the call, as it was; it returns a newly
    allocated object, which holds the value [load_and_filter] computes.
    When it fails, the value model fails too. *)
Theorem load_and_filter_no_mutation (σ : Heap.state) (l_df : Heap.loc) (df : frame) (d : date)
  (Hwf : Heap.wf σ) (Hdf : Heap.store σ !! l_df = Some df) :
  match Heap.load_and_filter_st l_df d σ with
  | Some (l_out, σ') =>
      Heap.store σ' !! l_df = Some df /\
      (forall l, (l < Heap.next σ)%nat -> Heap.store σ' !! l = Heap.store σ !! l) /\
      (Heap.next σ <= l_out)%nat /\
      Heap.store σ' !! l_out = load_and_filter df d
  | None => load_and_filter df d = None
  end.
Proof.
  destruct σ as [m n]. cbn [Heap.store Heap.next] in *.
  unfold Heap.load_and_filter_st, Heap.column_at, Heap.setitem_at.
  unfold mbind, mret, Heap.st_mbind, Heap.st_mret, Heap.st_bind, Heap.st_ret,
    Heap.load, Heap.alloc, Heap.store_at, Heap.st_lift.
  cbn [Heap.store Heap.next]. rewrite Hdf.
  unfold load_and_filter, select_and_parse, filter_and_enrich.
  destruct (getitem_cols df KEEP_COLS) as [df1|] eqn:E1; [|reflexivity].
  heap_simpl.
  assert (Hlt : (l_df < n)%nat) by (apply (Hwf l_df); exists df; exact Hdf).
  cbn [mbind option_bind].
  repeat (heap_simpl; cbn [mbind option_bind];
    first [ match goal with
            | |- context [previous_week_window d] =>
                destruct (previous_week_window d) as [[start end_]|]
            end
          | match goal with
            | H : column ?f ?c = _ |- context [column ?f ?c] => rewrite H
            | H : between_col ?a ?b ?c = _ |- context [between_col ?a ?b ?c] => rewrite H
            | H : startswith_col ?c = _ |- context [startswith_col ?c] => rewrite H
            end
          | match goal with |- context [column ?f ?c] => destruct (column f c) eqn:? end
          | match goal with
            | |- context [between_col ?a ?b ?c] => destruct (between_col a b c) eqn:?
            end
          | match goal with
            | |- context [startswith_col ?c] => destruct (startswith_col c) eqn:?
            end ];
    heap_simpl; cbn [mbind option_bind];
    lazymatch goal with |- @eq _ _ _ => reflexivity | _ => idtac end).
  split; [exact Hdf|]. split; [intros lx Hlx; heap_simpl; reflexivity|].
  split; [lia | reflexivity].
Qed.

Lemma load_and_filter_no_mutation_witness :
  Heap.wf (Heap.mkState {[ 0%nat := sample ]} 1%nat) /\
  Heap.store (Heap.mkState {[ 0%nat := sample ]} 1%nat) !! 0%nat = Some sample /\
  Heap.load_and_filter_st 0%nat (ymd2ord 2025 7 16) (Heap.mkState {[ 0%nat := sample ]} 1%nat) <> None /\
  match Heap.load_and_filter_st 0%nat (ymd2ord 2025 7 16) (Heap.mkState {[ 0%nat := sample ]} 1%nat) with
  | Some (l_out, σ') =>
      Heap.store σ' !! 0%nat = Some sample /\
      (forall l, (l < Heap.next (Heap.mkState {[ 0%nat := sample ]} 1%nat))%nat ->
                 Heap.store σ' !! l = Heap.store (Heap.mkState {[ 0%nat := sample ]} 1%nat) !! l) /\
      (Heap.next (Heap.mkState {[ 0%nat := sample ]} 1%nat) <= l_out)%nat /\
      Heap.store σ' !! l_out = load_and_filter sample (ymd2ord 2025 7 16)
  | None => load_and_filter sample (ymd2ord 2025 7 16) = None
  end.
Proof.
  assert (Hwf : Heap.wf (Heap.mkState {[ 0%nat := sample ]} 1%nat)).
  { intros l [f Hl]. cbn [Heap.store Heap.next] in *.
    apply lookup_singleton_Some in Hl as [<- _]. lia. }
  assert (Hdf : Heap.store (Heap.mkState {[ 0%nat := sample ]} 1%nat) !! 0%nat = Some sample).
  { vm_compute. reflexivity. }
  split; [exact Hwf|]. split; [exact Hdf|]. split; [vm_compute; discriminate|].
  apply (load_and_filter_no_mutation _ 0%nat sample (ymd2ord 2025 7 16) Hwf Hdf).
Defined.

(* ================================================================== *)
(** * Further properties of the code *)

(* ------------------------------------------------------------------ *)
(** ** The window and the reference date *)

Lemma monday_value (d : date) :
  d - weekday d = 7 * ((d + 6) / 7) - 6.
Proof. unfold weekday. pose proof (Z.div_mod (d + 6) 7). lia. Qed.

Lemma monday_ranges (d : date) :
  valid_date d -> (d < 8 -> d - weekday d = 1) /\ (8 <= d -> 8 <= d - weekday d).
Proof.
  intros [H1 _]. unfold MINORDINAL in H1. rewrite monday_value. split; intros H.
  - assert (E : (d + 6) / 7 = 1) by (symmetry; apply (Z.div_unique _ _ _ (d - 1)); lia). lia.
  - assert (E : 2 <= (d + 6) / 7) by (apply Z.div_le_lower_bound; lia). lia.
Qed.

(** Two reference dates give the same window (or both raise) exactly
    when they fall in the same Monday-to-Sunday week. *)
Theorem previous_week_window_same_week (d1 d2 : date) :
  valid_date d1 -> valid_date d2 ->
  previous_week_window d1 = previous_week_window d2 <-> d1 - weekday d1 = d2 - weekday d2.
Proof.
  intros V1 V2.
  pose proof (monday_ranges d1 V1) as [A1 B1]. pose proof (monday_ranges d2 V2) as [A2 B2].
  destruct (Z.lt_ge_cases d1 8) as [L1|L1], (Z.lt_ge_cases d2 8) as [L2|L2].
  - rewrite !previous_week_window_none by assumption. split; [intros _; lia | reflexivity].
  - rewrite previous_week_window_none by assumption.
    rewrite previous_week_window_some by (destruct V2; lia).
    split; [discriminate | intros E; specialize (A1 L1); specialize (B2 L2); lia].
  - rewrite (previous_week_window_none d2) by assumption.
    rewrite previous_week_window_some by (destruct V1; lia).
    split; [discriminate | intros E; specialize (A2 L2); specialize (B1 L1); lia].
  - rewrite !previous_week_window_some by (destruct V1, V2; lia).
    split; [intros E; injection E; lia | intros E; rewrite E; reflexivity].
Qed.

Lemma previous_week_window_same_week_witness :
  valid_date (ymd2ord 2025 7 14) /\ valid_date (ymd2ord 2025 7 20) /\
  (previous_week_window (ymd2ord 2025 7 14) = previous_week_window (ymd2ord 2025 7 20) <->
   ymd2ord 2025 7 14 - weekday (ymd2ord 2025 7 14) = ymd2ord 2025 7 20 - weekday (ymd2ord 2025 7 20)).
Proof.
  assert (V1 : valid_date (ymd2ord 2025 7 14)) by (vm_compute; split; discriminate).
  assert (V2 : valid_date (ymd2ord 2025 7 20)) by (vm_compute; split; discriminate).
  split; [exact V1|]. split; [exact V2|].
  exact (previous_week_window_same_week _ _ V1 V2).
Defined.

(** The reference date is never inside its window: the window runs from
    a Monday to the following Sunday, and the reference date lies in the
    seven days after that Sunday. *)
Theorem previous_week_window_after_end (d : date) :
  8 <= d <= MAXORDINAL ->
  exists start end_, previous_week_window d = Some (start, end_) /\
    end_ < d <= end_ + 7 /\ start = end_ - 6 /\ weekday start = 0 /\ weekday end_ = 6.
Proof.
  intros Hd. rewrite previous_week_window_some by exact Hd.
  pose proof (weekday_bounds d). eexists _, _. split; [reflexivity|].
  split; [lia|]. split; [lia|].
  rewrite !monday_value. set (q := (d + 6) / 7). unfold weekday. split.
  - replace (7 * q - 6 - 7 + 6) with (0 + (q - 1) * 7) by lia.
    rewrite Z_mod_plus_full. reflexivity.
  - replace (7 * q - 6 - 1 + 6) with (6 + (q - 1) * 7) by lia.
    rewrite Z_mod_plus_full. reflexivity.
Qed.

Lemma previous_week_window_after_end_witness :
  8 <= ymd2ord 2025 7 20 <= MAXORDINAL /\
  exists start end_, previous_week_window (ymd2ord 2025 7 20) = Some (start, end_) /\
    end_ < ymd2ord 2025 7 20 <= end_ + 7 /\ start = end_ - 6 /\
    weekday start = 0 /\ weekday end_ = 6.
Proof.
  assert (Hd : 8 <= ymd2ord 2025 7 20 <= MAXORDINAL) by (vm_compute; split; discriminate).
  split; [exact Hd | exact (previous_week_window_after_end _ Hd)].
Defined.

Lemma has_col_in (df : frame) (c : pystr) : has_col df c = true <-> In c (header df).
Proof.
  unfold has_col. rewrite existsb_exists. split.
  - intros [x [Hx E]]. apply pystr_eqb_eq in E. subst x. exact Hx.
  - intros H. exists c. split; [exact H | apply pystr_eqb_refl].
Qed.

Lemma forallb_false_ex {A} (f : A -> bool) (l : list A) :
  forallb f l = false -> exists x, In x l /\ f x = false.
Proof.
  induction l as [|x l IH]; cbn [forallb]; [discriminate|].
  destruct (f x) eqn:Ex; cbn [andb].
  - intros H. destruct (IH H) as (y & Hy & Fy). exists y. split; [right; exact Hy | exact Fy].
  - intros _. exists x. split; [left; reflexivity | exact Ex].
Qed.

Lemma forallb_map_Forall {A B} (p : B -> bool) (f : A -> B) (l : list A) :
  forallb p (map f l) = true <-> Forall (fun x => p (f x) = true) l.
Proof.
  rewrite forallb_forall, List.Forall_forall. split.
  - intros H x Hx. apply H. apply in_map. exact Hx.
  - intros H y Hy. apply in_map_iff in Hy as [x [<- Hx]]. apply H, Hx.
Qed.

Lemma map_nonempty {A B} (f : A -> B) (l : list A) : map f l <> [] <-> l <> [].
Proof. destruct l; cbn [map]; split; congruence. Qed.

Lemma all_column_iff (p : cell -> bool) (col : list cell) :
  match col with [] => false | _ => forallb p col end = true <->
  col <> [] /\ forallb p col = true.
Proof.
  destruct col as [|c t].
  - split; [discriminate | intros [[] _]; reflexivity].
  - change (forallb p (c :: t) = true <-> c :: t <> [] /\ forallb p (c :: t) = true).
    split; [intros H; split; [discriminate | exact H] | intros [_ H]; exact H].
Qed.

(** the row view of the two column-level failures, on the parsed
    projection of the input rows *)
Lemma frame_raises_parsed_iff (rs : list row) :
  frame_raises (map (fun r => parse_row (proj_row r)) rs) = true <->
  rs <> [] /\
  (Forall (fun r => close_date_cell (row_get r c_Close_Date) = CNaT) rs \/
   Forall (fun r => row_get r c_Import_Type = CNa) rs).
Proof.
  unfold frame_raises, all_nat_column, all_nan_column.
  rewrite orb_true_iff, !all_column_iff, !List.map_map, !map_nonempty,
    !forallb_map_Forall.
  assert (E1 : Forall (fun x => is_nat_cell (row_get (parse_row (proj_row x)) c_Close_Date) = true) rs
               <-> Forall (fun r => close_date_cell (row_get r c_Close_Date) = CNaT) rs).
  { rewrite !List.Forall_forall. split; intros H x Hx; specialize (H x Hx);
      rewrite parse_row_close in *; destruct (close_date_cell _); cbn in *; congruence. }
  assert (E2 : Forall (fun x => is_nan_cell (row_get (parse_row (proj_row x)) c_Import_Type) = true) rs
               <-> Forall (fun r => row_get r c_Import_Type = CNa) rs).
  { rewrite !List.Forall_forall. split; intros H x Hx; specialize (H x Hx);
      rewrite parse_row_import_type in *; destruct (row_get x c_Import_Type); cbn in *; congruence. }
  rewrite E1, E2. tauto.
Qed.



(* ------------------------------------------------------------------ *)
(** ** How [load_and_filter] composes *)

Lemma forallb_ext_in {A} (f g : A -> bool) (l : list A) :
  (forall x, In x l -> f x = g x) -> forallb f l = forallb g l.
Proof.
  induction l as [|x l IH]; intros H; cbn [forallb]; [reflexivity|].
  rewrite (H x (or_introl eq_refl)), IH; [reflexivity|]. intros y Hy. apply H. right. exact Hy.
Qed.

Lemma filter_length_le {A} (p : A -> bool) (l : list A) :
  (List.length (List.filter p l) <= List.length l)%nat.
Proof. induction l as [|x l IH]; cbn; [lia|]. destruct (p x); cbn; lia. Qed.

Lemma row_set_keys (r : row) (c : pystr) (v : cell) :
  map fst (row_set r c v) =
    if existsb (fun k => pystr_eqb k c) (map fst r) then map fst r else map fst r ++ [c].
Proof.
  induction r as [|[k x] t IH]; cbn [row_set map existsb fst]; [reflexivity|].
  destruct (pystr_eqb k c) eqn:E; cbn [orb map fst].
  - apply pystr_eqb_eq in E. subst. reflexivity.
  - rewrite IH. destruct (existsb _ (map fst t)); reflexivity.
Qed.

Lemma same_week_window (d1 d2 : date) :
  valid_date d1 -> valid_date d2 -> d1 - weekday d1 = d2 - weekday d2 ->
  previous_week_window d1 = previous_week_window d2.
Proof.
  intros V1 V2 E.
  pose proof (monday_ranges d1 V1) as [A1 B1]. pose proof (monday_ranges d2 V2) as [A2 B2].
  destruct (Z.lt_ge_cases d1 8) as [L1|L1], (Z.lt_ge_cases d2 8) as [L2|L2].
  - rewrite !previous_week_window_none by assumption. reflexivity.
  - specialize (A1 L1). specialize (B2 L2). lia.
  - specialize (A2 L2). specialize (B1 L1). lia.
  - rewrite !previous_week_window_some by (destruct V1, V2; lia). rewrite E. reflexivity.
Qed.

(** [load_and_filter] reads only the six kept columns: two tables that
    have the same kept columns and whose rows agree, one by one, on
    those columns give the same result, whatever their other columns
    and the order of their columns. *)
Theorem load_and_filter_kept_columns_only (df1 df2 : frame) (d : date) :
  (forall c, In c KEEP_COLS -> (In c (header df1) <-> In c (header df2))) ->
  Forall2 (fun r1 r2 => forall c, In c KEEP_COLS -> row_get r1 c = row_get r2 c)
          (rows df1) (rows df2) ->
  load_and_filter df1 d = load_and_filter df2 d.
Proof.
  intros Hh Hr. rewrite !load_and_filter_eq.
  rewrite (forallb_ext_in (has_col df1) (has_col df2)).
  - destruct (forallb (has_col df2) KEEP_COLS); [|reflexivity].
    destruct (previous_week_window d) as [[start end_]|]; [|reflexivity].
    assert (Hm : map (fun r => parse_row (proj_row r)) (rows df1)
                 = map (fun r => parse_row (proj_row r)) (rows df2)).
    { induction Hr as [|r1 r2 l1 l2 Hc _ IH]; cbn [map]; [reflexivity|].
      rewrite IH. f_equal. unfold proj_row. f_equal.
      apply map_ext_in. intros c Hin. rewrite (Hc c Hin). reflexivity. }
    rewrite Hm. reflexivity.
  - intros c Hc. specialize (Hh c Hc). rewrite <- !has_col_in in Hh.
    apply Bool.eq_iff_eq_true. exact Hh.
Qed.

Lemma load_and_filter_kept_columns_only_witness :
  (forall c, In c KEEP_COLS -> (In c (header sample) <-> In c (rev (header sample)))) /\
  Forall2 (fun r1 r2 => forall c, In c KEEP_COLS -> row_get r1 c = row_get r2 c)
          (rows sample) (map proj_row (rows sample)) /\
  load_and_filter sample (ymd2ord 2025 7 16)
  = load_and_filter {| header := rev (header sample); rows := map proj_row (rows sample) |}
                    (ymd2ord 2025 7 16).
Proof.
  assert (H1 : forall c, In c KEEP_COLS -> (In c (header sample) <-> In c (rev (header sample)))).
  { intros c _. rewrite <- in_rev. reflexivity. }
  assert (H2 : Forall2 (fun r1 r2 => forall c, In c KEEP_COLS -> row_get r1 c = row_get r2 c)
                       (rows sample) (map proj_row (rows sample))).
  { generalize (rows sample) as l. induction l as [|r l IH]; cbn [map]; constructor; [|exact IH].
    intros c Hc. symmetry. apply proj_row_get, Hc. }
  split; [exact H1|]. split; [exact H2|].
  exact (load_and_filter_kept_columns_only sample
           {| header := rev (header sample); rows := map proj_row (rows sample) |} _ H1 H2).
Defined.

Lemma all_column_app (p : cell -> bool) (c1 c2 : list cell) :
  match c1 ++ c2 with [] => false | _ => forallb p (c1 ++ c2) end = true ->
  match c1 with [] => false | _ => forallb p c1 end = true \/
  match c2 with [] => false | _ => forallb p c2 end = true.
Proof.
  rewrite !all_column_iff, forallb_app. intros [Hn Hf].
  apply andb_true_iff in Hf as [F1 F2].
  destruct c1 as [|c t]; [right; split; [exact Hn | exact F2] | left; split; [discriminate | exact F1]].
Qed.

(** neither part of a concatenation raising, the concatenation does not
    raise either *)
Lemma frame_raises_app (l1 l2 : list row) :
  frame_raises l1 = false -> frame_raises l2 = false -> frame_raises (l1 ++ l2) = false.
Proof.
  unfold frame_raises, all_nat_column, all_nan_column. rewrite !List.map_app.
  intros H1 H2. apply orb_false_iff in H1 as [A1 B1]. apply orb_false_iff in H2 as [A2 B2].
  apply orb_false_iff. split; apply not_true_iff_false; intros H;
    destruct (all_column_app _ _ _ H); congruence.
Qed.

(** Filtering a concatenation of two exports with the same columns, each
    of which filters without error, is filtering each one and
    concatenating the results. *)
Theorem load_and_filter_app (hdr : list pystr) (rs1 rs2 : list row) (d : date) (o1 o2 : frame) :
  load_and_filter {| header := hdr; rows := rs1 |} d = Some o1 ->
  load_and_filter {| header := hdr; rows := rs2 |} d = Some o2 ->
  load_and_filter {| header := hdr; rows := rs1 ++ rs2 |} d =
    Some {| header := header o1; rows := rows o1 ++ rows o2 |}.
Proof.
  intros H1 H2. rewrite !load_and_filter_eq in *. unfold has_col in *. cbn [header rows] in *.
  destruct (forallb _ KEEP_COLS); [|discriminate].
  destruct (previous_week_window d) as [[start end_]|]; [|discriminate].
  rewrite List.map_app.
  destruct (frame_raises (map (fun r => parse_row (proj_row r)) rs1)) eqn:F1; [discriminate|].
  destruct (frame_raises (map (fun r => parse_row (proj_row r)) rs2)) eqn:F2; [discriminate|].
  rewrite frame_raises_app by assumption.
  injection H1 as <-. injection H2 as <-. cbn [header rows].
  rewrite List.filter_app, List.map_app. reflexivity.
Qed.

Lemma load_and_filter_app_witness :
  exists o1 o2,
    load_and_filter {| header := header sample; rows := rows sample |} (ymd2ord 2025 7 16) = Some o1 /\
    load_and_filter {| header := header sample; rows := rows sample |} (ymd2ord 2025 7 16) = Some o2 /\
    load_and_filter {| header := header sample; rows := rows sample ++ rows sample |} (ymd2ord 2025 7 16)
      = Some {| header := header o1; rows := rows o1 ++ rows o2 |}.
Proof.
  destruct (load_and_filter {| header := header sample; rows := rows sample |} (ymd2ord 2025 7 16))
    as [o|] eqn:E.
  - exists o, o. split; [reflexivity|]. split; [reflexivity|].
    exact (load_and_filter_app (header sample) (rows sample) (rows sample) _ o o E E).
  - exfalso. vm_compute in E. discriminate E.
Defined.

(** The table [load_and_filter] returns has the eight columns
    [KEEP_COLS ++ ["BL_CAT"; "ImporterShort"]], in that order, in its
    header and in each row, and no more rows than its input. *)
Theorem load_and_filter_shape (df : frame) (d : date) (out : frame) :
  load_and_filter df d = Some out ->
  header out = OUT_COLS /\
  (forall r, In r (rows out) -> map fst r = OUT_COLS) /\
  (List.length (rows out) <= List.length (rows df))%nat.
Proof.
  intros H. rewrite load_and_filter_eq in H.
  destruct (forallb (has_col df) KEEP_COLS); [|discriminate].
  destruct (previous_week_window d) as [[start end_]|]; [|discriminate].
  destruct (frame_raises _); [discriminate|].
  injection H as <-. cbn [header rows].
  split; [reflexivity|]. split.
  - intros r Hr. apply in_map_iff in Hr as [x [<- Hx]].
    apply filter_In in Hx as [Hx _]. apply in_map_iff in Hx as [r0 [<- _]].
    unfold enrich_row, parse_row. rewrite !row_set_keys.
    assert (Hk : map fst (proj_row r0) = KEEP_COLS).
    { unfold proj_row. rewrite map_map. apply map_id. }
    rewrite Hk. vm_compute. reflexivity.
  - rewrite List.length_map. etransitivity; [apply filter_length_le|].
    rewrite List.length_map. lia.
Qed.

Lemma load_and_filter_shape_witness :
  load_and_filter sample (ymd2ord 2025 7 16) <> None /\
  forall out, load_and_filter sample (ymd2ord 2025 7 16) = Some out ->
  header out = OUT_COLS /\
  (forall r, In r (rows out) -> map fst r = OUT_COLS) /\
  (List.length (rows out) <= List.length (rows sample))%nat.
Proof.
  split; [vm_compute; discriminate|].
  intros out H. exact (load_and_filter_shape sample _ out H).
Defined.

(** The page (the filtered table's KPI cards and the two messages) is
    the same for every reference date of one Monday-to-Sunday week. *)
Theorem page_run_same_week (raw_df : frame) (d1 d2 : date) :
  valid_date d1 -> valid_date d2 -> d1 - weekday d1 = d2 - weekday d2 ->
  page_run raw_df d1 = page_run raw_df d2.
Proof.
  intros V1 V2 E. unfold page_run.
  assert (H : load_and_filter raw_df d1 = load_and_filter raw_df d2).
  { rewrite !load_and_filter_eq, (same_week_window d1 d2 V1 V2 E). reflexivity. }
  rewrite H. reflexivity.
Qed.

Lemma page_run_same_week_witness :
  valid_date (ymd2ord 2025 7 14) /\ valid_date (ymd2ord 2025 7 20) /\
  ymd2ord 2025 7 14 - weekday (ymd2ord 2025 7 14) = ymd2ord 2025 7 20 - weekday (ymd2ord 2025 7 20) /\
  page_run sample_links (ymd2ord 2025 7 14) <> None /\
  page_run sample_links (ymd2ord 2025 7 14) = page_run sample_links (ymd2ord 2025 7 20).
Proof.
  assert (V1 : valid_date (ymd2ord 2025 7 14)) by (vm_compute; split; discriminate).
  assert (V2 : valid_date (ymd2ord 2025 7 20)) by (vm_compute; split; discriminate).
  assert (E : ymd2ord 2025 7 14 - weekday (ymd2ord 2025 7 14)
              = ymd2ord 2025 7 20 - weekday (ymd2ord 2025 7 20)) by (vm_compute; reflexivity).
  split; [exact V1|]. split; [exact V2|]. split; [exact E|].
  split; [vm_compute; discriminate|].
  exact (page_run_same_week sample_links _ _ V1 V2 E).
Defined.

(* ------------------------------------------------------------------ *)
(** ** Business Line categories, further *)

Lemma lstrip_spaces_app (w x : pystr) :
  forallb is_space w = true -> lstrip (w ++ x) = lstrip x.
Proof.
  induction w as [|c w IH]; intros H; [reflexivity|].
  cbn [forallb] in H. apply andb_true_iff in H as [Hc H].
  cbn [app lstrip]. rewrite Hc. apply IH, H.
Qed.

Lemma lstrip_app_right (s w : pystr) :
  lstrip s <> [] -> lstrip (s ++ w) = lstrip s ++ w.
Proof.
  induction s as [|c s IH]; intros H; [contradiction|].
  cbn [app lstrip] in *. destruct (is_space c); [apply IH, H | reflexivity].
Qed.

Lemma lstrip_nil_app (s w : pystr) :
  lstrip s = [] -> forallb is_space w = true -> lstrip (s ++ w) = [].
Proof.
  intros Hs Hw. induction s as [|c s IH].
  - rewrite app_nil_l, <- (app_nil_r w), lstrip_spaces_app by exact Hw. reflexivity.
  - cbn [app lstrip] in *. destruct (is_space c); [apply IH, Hs | discriminate].
Qed.

Lemma forallb_rev {A} (f : A -> bool) (l : list A) : forallb f (rev l) = forallb f l.
Proof.
  apply Bool.eq_iff_eq_true. rewrite !forallb_forall.
  split; intros H x Hx; apply H; [apply (proj1 (in_rev l x)), Hx | apply (proj2 (in_rev l x)), Hx].
Qed.

Lemma py_strip_spaces (ws1 s ws2 : pystr) :
  forallb is_space ws1 = true -> forallb is_space ws2 = true ->
  py_strip (ws1 ++ s ++ ws2) = py_strip s.
Proof.
  intros H1 H2. unfold py_strip. rewrite lstrip_spaces_app by exact H1.
  destruct (lstrip s) as [|c u] eqn:E.
  - rewrite lstrip_nil_app by assumption. reflexivity.
  - rewrite lstrip_app_right by (rewrite E; discriminate). rewrite E.
    rewrite rev_app_distr, lstrip_spaces_app by (rewrite forallb_rev; exact H2).
    reflexivity.
Qed.

Lemma py_strip_nonspace_ends (s : pystr) :
  (forall c t, s = c :: t -> is_space c = false) ->
  (forall u l, s = u ++ [l] -> is_space l = false) ->
  py_strip s = s.
Proof.
  intros H1 H2. unfold py_strip.
  assert (E : lstrip s = s).
  { destruct s as [|c t]; [reflexivity|]. cbn [lstrip]. rewrite (H1 c t eq_refl). reflexivity. }
  rewrite E. clear E.
  destruct s as [|x u _] using rev_ind; [reflexivity|].
  rewrite rev_unit. cbn [lstrip]. rewrite (H2 u x eq_refl).
  rewrite <- rev_unit, rev_involutive. reflexivity.
Qed.

Lemma lower_char_space (c : Z) : is_space c = true -> lower_char c = [c].
Proof.
  intros H. unfold is_space in H.
  rewrite !orb_true_iff, !andb_true_iff, !Z.leb_le, !Z.eqb_eq in H.
  unfold lower_char.
  destruct (Z.leb_spec 65 c), (Z.leb_spec c 90); cbn [andb];
    [exfalso; lia | | |]; destruct (Z.eqb_spec c 8490); try (exfalso; lia);
    destruct (Z.eqb_spec c 304); try (exfalso; lia); reflexivity.
Qed.

Lemma py_lower_app (a b : pystr) : py_lower (a ++ b) = py_lower a ++ py_lower b.
Proof. unfold py_lower. rewrite List.map_app, List.concat_app. reflexivity. Qed.

Lemma lstrip_app_nonspace (l : pystr) (c : Z) :
  is_space c = false -> exists u, lstrip (l ++ [c]) = u ++ [c].
Proof.
  intros Hc. induction l as [|x l IH].
  - exists []. cbn. rewrite Hc. reflexivity.
  - cbn [app lstrip]. destruct (is_space x); [exact IH|]. exists (x :: l). reflexivity.
Qed.

Lemma py_strip_head (c : Z) (t : pystr) :
  is_space c = false -> exists u, py_strip (c :: t) = c :: u.
Proof.
  intros Hc. unfold py_strip. cbn [lstrip]. rewrite Hc. cbn [rev].
  destruct (lstrip_app_nonspace (rev t) c Hc) as [u ->].
  rewrite rev_unit. exists (rev u). reflexivity.
Qed.

Lemma py_str_int_head_digit (n : Z) :
  exists c t, py_str_int n = c :: t /\ (is_digit c = true \/ c = 45).
Proof.
  unfold py_str_int. destruct (n <? 0).
  - eexists _, _. split; [reflexivity | right; reflexivity].
  - pose proof (digits_rev_digits (S (Z.to_nat n)) n) as HF.
    destruct (rev (digits_rev (S (Z.to_nat n)) n)) as [|c t] eqn:E.
    + apply (f_equal (@List.length Z)) in E. rewrite List.length_rev in E. discriminate.
    + exists c, t. split; [reflexivity|]. left.
      assert (Hc : In c (digits_rev (S (Z.to_nat n)) n)).
      { apply List.in_rev. rewrite E. left. reflexivity. }
      rewrite List.Forall_forall in HF. exact (HF c Hc).
Qed.

Lemma date_iso_head_digit (d : date) :
  exists c t, date_iso d = c :: t /\ (is_digit c = true \/ c = 45).
Proof.
  unfold date_iso. destruct (ord2ymd d) as [[y m] dd]. unfold zpad.
  destruct (4 - List.length (py_str_int y))%nat as [|k].
  - destruct (py_str_int_head_digit y) as (c & t & -> & Hc).
    eexists _, _. split; [reflexivity | exact Hc].
  - eexists _, _. split; [reflexivity | left; reflexivity].
Qed.

Lemma dict_get_head_none (dct : list (pystr * pystr)) (b c : Z) (t : pystr) :
  forallb (fun kv => match kv.1 with x :: _ => b <=? x | [] => false end) dct = true ->
  c < b -> dict_get dct (c :: t) = None.
Proof.
  intros H Hc. induction dct as [|[k v] dct IH]; [reflexivity|].
  cbn [forallb] in H. apply andb_true_iff in H as [Hk H]. cbn [fst] in Hk.
  destruct k as [|x k]; [discriminate|]. apply Z.leb_le in Hk.
  cbn [dict_get pystr_eqb]. destruct (Z.eqb_spec c x); [lia|]. cbn [andb]. apply IH, H.
Qed.

(** A Business Line that is missing ([NaN], whose [str] is "nan"), a
    [NaT] or a date is categorised "Individual". *)
Theorem business_line_cat_non_str :
  business_line_cat CNa = v_Individual /\ business_line_cat CNaT = v_Individual /\
  forall d, business_line_cat (CDate d) = v_Individual.
Proof.
  split; [vm_compute; reflexivity|]. split; [vm_compute; reflexivity|].
  intros d. unfold business_line_cat. cbn [py_str].
  destruct (date_iso_head_digit d) as (c & t & -> & Hc).
  assert (Hb : 45 <= c <= 57).
  { destruct Hc as [Hc | ->]; [unfold is_digit in Hc; apply andb_true_iff in Hc as [A B];
      apply Z.leb_le in A; apply Z.leb_le in B|]; lia. }
  assert (Hs : is_space c = false).
  { unfold is_space. repeat (rewrite ?orb_false_iff; split);
      rewrite ?andb_false_iff, ?Z.leb_gt, ?Z.eqb_neq; lia. }
  destruct (py_strip_head c t Hs) as [u ->].
  assert (Hl : lower_char c = [c]).
  { unfold lower_char. destruct (Z.leb_spec 65 c); [lia|]. cbn [andb].
    destruct (Z.eqb_spec c 8490); [lia|]. destruct (Z.eqb_spec c 304); [lia|]. reflexivity. }
  unfold py_lower. cbn [map List.concat]. rewrite Hl. cbn [app].
  rewrite (dict_get_head_none _ 58); [reflexivity | vm_compute; reflexivity | lia].
Qed.

Lemma py_strip_lower_key (s k : pystr) :
  py_lower s = k ->
  (forall c t, k = c :: t -> is_space c = false) ->
  (forall u l, k = u ++ [l] -> is_space l = false) ->
  py_strip s = s.
Proof.
  intros Hk H1 H2. apply py_strip_nonspace_ends.
  - intros c t ->. destruct (is_space c) eqn:Hc; [|reflexivity].
    unfold py_lower in Hk. cbn [map List.concat] in Hk. rewrite lower_char_space in Hk by exact Hc.
    symmetry in Hk. rewrite <- Hc. exact (H1 _ _ Hk).
  - intros u l ->. destruct (is_space l) eqn:Hl; [|reflexivity].
    rewrite py_lower_app in Hk. unfold py_lower at 2 in Hk. cbn [map List.concat] in Hk.
    rewrite lower_char_space, app_nil_r in Hk by exact Hl.
    symmetry in Hk. rewrite <- Hl. exact (H2 _ _ Hk).
Qed.

Lemma key_ends (k : pystr) :
  k <> [] -> is_space (hd 0 k) = false -> is_space (List.last k 0) = false ->
  (forall c t, k = c :: t -> is_space c = false) /\
  (forall u l, k = u ++ [l] -> is_space l = false).
Proof.
  intros Hn Hh Hl. split.
  - intros c t ->. exact Hh.
  - intros u l ->. rewrite List.last_last in Hl. exact Hl.
Qed.

Lemma business_line_map_keys (k v : pystr) :
  In (k, v) BUSINESS_LINE_MAP ->
  k <> [] /\ is_space (hd 0 k) = false /\ is_space (List.last k 0) = false /\
  dict_get BUSINESS_LINE_MAP k = Some v.
Proof.
  unfold BUSINESS_LINE_MAP. cbn [In].
  intros [E|[E|[E|[E|[E|[E|[]]]]]]]; injection E as <- <-;
    (split; [vm_compute; discriminate|]); vm_compute; repeat split.
Qed.

(** [str(raw_bl).strip().lower()]: white space around a Business Line
    does not change its category, and a Business Line that is a key of
    [BUSINESS_LINE_MAP] in any mix of upper and lower case, with white
    space around it, is given that key's category. *)
Theorem business_line_cat_normalises (ws1 s ws2 : pystr) :
  forallb is_space ws1 = true -> forallb is_space ws2 = true ->
  business_line_cat (CStr (ws1 ++ s ++ ws2)) = business_line_cat (CStr s) /\
  (forall k v, In (k, v) BUSINESS_LINE_MAP -> py_lower s = k ->
               business_line_cat (CStr (ws1 ++ s ++ ws2)) = v).
Proof.
  intros H1 H2. unfold business_line_cat. cbn [py_str].
  rewrite py_strip_spaces by assumption. split; [reflexivity|].
  intros k v Hin Hk.
  destruct (business_line_map_keys k v Hin) as (Hn & Hh & Hl & Hd).
  destruct (key_ends k Hn Hh Hl) as [E1 E2].
  rewrite (py_strip_lower_key s k Hk E1 E2), Hk, Hd. reflexivity.
Qed.

Lemma business_line_cat_normalises_witness :
  forallb is_space [32; 9] = true /\ forallb is_space [10] = true /\
  (business_line_cat (CStr ([32; 9] ++ u8 "Clinic AGENDA" ++ [10]))
     = business_line_cat (CStr (u8 "Clinic AGENDA")) /\
   (forall k v, In (k, v) BUSINESS_LINE_MAP -> py_lower (u8 "Clinic AGENDA") = k ->
                business_line_cat (CStr ([32; 9] ++ u8 "Clinic AGENDA" ++ [10])) = v)).
Proof.
  split; [vm_compute; reflexivity|]. split; [vm_compute; reflexivity|].
  apply business_line_cat_normalises; vm_compute; reflexivity.
Defined.

(* ------------------------------------------------------------------ *)
(** ** [html.escape] *)

Lemma forallb_concat_map (f : Z -> bool) (g : Z -> pystr) (s : pystr) :
  forallb f (List.concat (map g s)) = forallb (fun c => forallb f (g c)) s.
Proof.
  induction s as [|c s IH]; [reflexivity|].
  cbn [map List.concat forallb]. rewrite forallb_app, IH. reflexivity.
Qed.

Lemma html_escape_char_safe (c : Z) :
  forallb (fun x => negb ((x =? 60) || (x =? 62) || (x =? 34) || (x =? 39)))
    (html_escape_char c) = true.
Proof.
  unfold html_escape_char.
  destruct (Z.eqb_spec c 38); [vm_compute; reflexivity|].
  destruct (Z.eqb_spec c 60) as [|n60]; [vm_compute; reflexivity|].
  destruct (Z.eqb_spec c 62) as [|n62]; [vm_compute; reflexivity|].
  destruct (Z.eqb_spec c 34) as [|n34]; [vm_compute; reflexivity|].
  destruct (Z.eqb_spec c 39) as [|n39]; [vm_compute; reflexivity|].
  cbn [forallb]. apply Z.eqb_neq in n60, n62, n34, n39.
  rewrite n60, n62, n34, n39. reflexivity.
Qed.

Lemma html_escape_char_plain (c : Z) :
  negb ((c =? 38) || (c =? 60) || (c =? 62) || (c =? 34) || (c =? 39)) = true ->
  html_escape_char c = [c].
Proof.
  intros H. unfold html_escape_char.
  destruct (c =? 38), (c =? 60), (c =? 62), (c =? 34), (c =? 39); try discriminate.
  reflexivity.
Qed.

Lemma html_escape_char_nonempty (c : Z) : html_escape_char c <> [].
Proof.
  unfold html_escape_char.
  destruct (c =? 38); [vm_compute; discriminate|].
  destruct (c =? 60); [vm_compute; discriminate|].
  destruct (c =? 62); [vm_compute; discriminate|].
  destruct (c =? 34); [vm_compute; discriminate|].
  destruct (c =? 39); [vm_compute; discriminate|]. discriminate.
Qed.

(** the escapes form a prefix code: the first character of an escaped
    string and the rest are read back uniquely *)
Lemma html_escape_char_prefix (c1 c2 : Z) (r1 r2 : pystr) :
  html_escape_char c1 ++ r1 = html_escape_char c2 ++ r2 -> c1 = c2 /\ r1 = r2.
Proof.
  unfold html_escape_char. intros H.
  destruct (Z.eqb_spec c1 38), (Z.eqb_spec c1 60), (Z.eqb_spec c1 62),
    (Z.eqb_spec c1 34), (Z.eqb_spec c1 39); try (exfalso; lia);
  destruct (Z.eqb_spec c2 38), (Z.eqb_spec c2 60), (Z.eqb_spec c2 62),
    (Z.eqb_spec c2 34), (Z.eqb_spec c2 39); try (exfalso; lia);
  vm_compute in H; inversion H; subst; try (exfalso; lia); split; first [lia | reflexivity].
Qed.

Lemma html_escape_list_injective (s1 s2 : pystr) :
  List.concat (map html_escape_char s1) = List.concat (map html_escape_char s2) -> s1 = s2.
Proof.
  revert s2; induction s1 as [|c1 s1 IH]; intros [|c2 s2]; cbn [map List.concat]; intros H.
  - reflexivity.
  - symmetry in H. apply app_eq_nil in H as [H _].
    exfalso. exact (html_escape_char_nonempty c2 H).
  - apply app_eq_nil in H as [H _].
    exfalso. exact (html_escape_char_nonempty c1 H).
  - apply html_escape_char_prefix in H as [-> H]. f_equal. apply IH, H.
Qed.

(** [html.escape(s)] always succeeds on a [str]; its result has no
    [<], [>], double or single quote, so it cannot close the [href]
    attribute or open a tag; and a string without an ampersand, angle bracket or quote is
    left as it is. *)
Theorem html_escape_spec (s : pystr) :
  exists e, html_escape (CStr s) = Some e /\
    (forall c, In c e -> c <> 60 /\ c <> 62 /\ c <> 34 /\ c <> 39) /\
    (forallb (fun c => negb ((c =? 38) || (c =? 60) || (c =? 62) || (c =? 34) || (c =? 39))) s
       = true -> e = s).
Proof.
  exists (List.concat (map html_escape_char s)). split; [reflexivity|]. split.
  - intros c Hc.
    pose proof (html_escape_char_safe) as Hs.
    assert (Hall : forallb (fun x => negb ((x =? 60) || (x =? 62) || (x =? 34) || (x =? 39)))
                     (List.concat (map html_escape_char s)) = true).
    { rewrite forallb_concat_map. apply forallb_forall. intros x _. apply Hs. }
    rewrite forallb_forall in Hall. specialize (Hall c Hc).
    rewrite !negb_orb, !andb_true_iff, !negb_true_iff, !Z.eqb_neq in Hall. tauto.
  - intros H. induction s as [|c s IH]; [reflexivity|].
    cbn [forallb] in H. apply andb_true_iff in H as [Hc H].
    cbn [map List.concat]. rewrite html_escape_char_plain by exact Hc.
    cbn [app]. f_equal. apply IH, H.
Qed.

(** [html.escape] is injective on strings: two different Urls (or
    Ticket Names) never give the same escaped text. *)
Theorem html_escape_injective (s1 s2 : pystr) :
  html_escape (CStr s1) = html_escape (CStr s2) -> s1 = s2.
Proof.
  cbn [html_escape]. intros H. injection H as H. apply html_escape_list_injective, H.
Qed.

Lemma html_escape_injective_witness :
  html_escape (CStr (u8 "https://crm/1?a=<b>&c='d'")) = html_escape (CStr (u8 "https://crm/1?a=<b>&c='d'")) /\
  u8 "https://crm/1?a=<b>&c='d'" = u8 "https://crm/1?a=<b>&c='d'".
Proof.
  assert (E : html_escape (CStr (u8 "https://crm/1?a=<b>&c='d'"))
              = html_escape (CStr (u8 "https://crm/1?a=<b>&c='d'"))) by reflexivity.
  split; [exact E | exact (html_escape_injective _ _ E)].
Defined.

(* ------------------------------------------------------------------ *)
(** ** The facility-link lists *)

(** The "no facility this week" placeholder is used, in the Markdown
    and in the HTML message, exactly when there is no facility link. *)
Theorem links_placeholder (fac : list (cell * cell)) :
  (links_md_of fac = NO_FACILITY_MD <-> fac = []) /\
  (links_html_of fac = Some NO_FACILITY_HTML <-> fac = []).
Proof.
  split; split; [| intros ->; reflexivity | | intros ->; reflexivity].
  - destruct fac as [|p t]; [reflexivity|]. intros H. exfalso.
    unfold links_md_of in H. cbn [map] in H.
    apply (f_equal (fun l => List.hd 0 l)) in H.
    destruct t; cbn [join map] in H; vm_compute in H; discriminate H.
  - destruct fac as [|p t]; [reflexivity|]. intros H. exfalso.
    unfold links_html_of in H.
    destruct (mapM _ (p :: t)) as [items|]; cbn [mbind option_bind] in H; [|discriminate H].
    apply (f_equal (fun o => match o with Some l => List.nth 1 l 0 | None => 0 end)) in H.
    vm_compute in H. discriminate H.
Qed.

(* ------------------------------------------------------------------ *)
(** ** [build_messages] and the page on a filtered table *)

Lemma out_row_names (df : frame) (d : date) (out : frame) (r : row) :
  load_and_filter df d = Some out -> In r (rows out) ->
  exists r0, In r0 (rows df) /\
    row_get r c_Ticket_Name = row_get r0 c_Ticket_Name /\ row_get r c_Url = row_get r0 c_Url.
Proof.
  intros H Hr. destruct (in_load_and_filter df d out r H Hr) as (s & e & x & _ & -> & _ & Hx).
  apply in_map_iff in Hx as [r0 [<- Hr0]]. exists r0. split; [exact Hr0|].
  unfold parse_row. split.
  - rewrite enrich_row_get by (vm_compute; reflexivity). rewrite row_get_set.
    replace (pystr_eqb c_Close_Date c_Ticket_Name) with false by (vm_compute; reflexivity).
    apply proj_row_get. unfold KEEP_COLS. right. left. vm_compute. reflexivity.
  - rewrite enrich_row_get by (vm_compute; reflexivity). rewrite row_get_set.
    replace (pystr_eqb c_Close_Date c_Url) with false by (vm_compute; reflexivity).
    apply proj_row_get. unfold KEEP_COLS. left. vm_compute. reflexivity.
Qed.

Lemma facility_pairs_unfold (df : frame) :
  has_col df c_BL_CAT = true -> has_col df c_Ticket_Name = true -> has_col df c_Url = true ->
  facility_pairs df =
  sort_values_name
    (drop_duplicates_url []
       (List.filter (fun p => negb (is_na p.1) && negb (is_na p.2))
          (map (fun r => (row_get r c_Ticket_Name, row_get r c_Url))
             (List.filter (fun r => cell_eqb (row_get r c_BL_CAT) (CStr v_Facility))
                (rows df))))).
Proof.
  intros H1 H2 H3. unfold facility_pairs, column. rewrite H1. cbn [mbind option_bind].
  unfold getitem_cols.
  replace (forallb (has_col (bool_index df _)) [c_Ticket_Name; c_Url]) with true
    by (unfold has_col in *; cbn [forallb bool_index header]; rewrite H2, H3; reflexivity).
  cbn [mbind option_bind rows bool_index].
  rewrite (map_map (fun r => row_get r c_BL_CAT)), filter_zip_map, map_map.
  cbn [row_get map]. eval_pystr_eqb. cbn iota. reflexivity.
Qed.

Lemma links_html_of_some (fac : list (cell * cell)) :
  (forall p, In p fac -> is_str_cell p.1 = true /\ is_str_cell p.2 = true) ->
  exists h, links_html_of fac = Some h.
Proof.
  intros H. destruct fac as [|q t]; [eexists; reflexivity|].
  unfold links_html_of.
  destruct (mapM_is_Some_2 (fun p : cell * cell =>
              eu ← html_escape p.2;
              en ← html_escape p.1;
              Some (u8 "<li><a href=" ++ [34] ++ eu ++ [34] ++ u8 ">" ++ en ++ u8 "</a></li>"))
              (q :: t)) as [items Hi].
  { apply List.Forall_forall. intros [a b] Hp. destruct (H _ Hp) as [Ha Hb].
    cbn [fst snd] in Ha, Hb.
    destruct a; try discriminate. destruct b; try discriminate. eexists. reflexivity. }
  rewrite Hi. eexists. reflexivity.
Qed.

Lemma build_messages_some (df : frame) (d : date) (out : frame) :
  load_and_filter df d = Some out ->
  Forall (fun r => str_or_na (row_get r c_Ticket_Name) = true /\
                   str_or_na (row_get r c_Url) = true) (rows df) ->
  exists r h, report_of out = Some r /\ links_html_of (fac_links r) = Some h /\
    build_messages out = Some (render_plain r (links_md_of (fac_links r)), render_html r h).
Proof.
  intros H Hs.
  assert (Hh : header out = OUT_COLS).
  { rewrite load_and_filter_eq in H.
    destruct (forallb (has_col df) KEEP_COLS); [|discriminate].
    destruct (previous_week_window d) as [[start end_]|]; [|discriminate].
  destruct (frame_raises _); [discriminate|].
    injection H as <-. reflexivity. }
  assert (Hc : forall c, In c OUT_COLS -> has_col out c = true).
  { intros c Hc. unfold has_col. rewrite Hh. apply existsb_exists.
    exists c. split; [exact Hc | apply pystr_eqb_refl]. }
  set (cand := List.filter (fun p => negb (is_na p.1) && negb (is_na p.2))
          (map (fun r => (row_get r c_Ticket_Name, row_get r c_Url))
             (List.filter (fun r => cell_eqb (row_get r c_BL_CAT) (CStr v_Facility))
                (rows out)))).
  assert (Hfp : facility_pairs out = sort_values_name (drop_duplicates_url [] cand))
    by (apply facility_pairs_unfold; apply Hc; vm_compute; tauto).
  assert (Hstr : forall p, In p cand -> is_str_cell p.1 = true /\ is_str_cell p.2 = true).
  { intros p Hp. unfold cand in Hp. apply filter_In in Hp as [Hp Hna].
    apply andb_true_iff in Hna as [Hna1 Hna2]. apply negb_true_iff in Hna1, Hna2.
    apply in_map_iff in Hp as [r [<- Hr]]. apply filter_In in Hr as [Hr _].
    destruct (out_row_names df d out r H Hr) as (r0 & Hr0 & E1 & E2).
    rewrite List.Forall_forall in Hs. destruct (Hs r0 Hr0) as [S1 S2].
    cbn [fst snd] in *. rewrite E1, E2 in *.
    split; [destruct (row_get r0 c_Ticket_Name) | destruct (row_get r0 c_Url)];
      cbn in *; congruence. }
  set (dd := drop_duplicates_url [] cand).
  assert (Hdd : forall p, In p dd -> is_str_cell p.1 = true /\ is_str_cell p.2 = true).
  { intros p Hp. apply Hstr. eapply drop_duplicates_url_sub, Hp. }
  assert (Hsort : sort_values_name dd = Some (foldr insert_by_name [] dd)).
  { unfold sort_values_name.
    replace (forallb (fun p => is_str_cell p.1) dd) with true; [reflexivity|].
    symmetry. apply forallb_forall. intros p Hp. apply Hdd, Hp. }
  destruct (insertion_sort_spec dd) as [Hperm _].
  assert (Hfac : forall p, In p (foldr insert_by_name [] dd) ->
                 is_str_cell p.1 = true /\ is_str_cell p.2 = true).
  { intros p Hp. apply Hdd. eapply Permutation_in; [exact Hperm | exact Hp]. }
  destruct (links_html_of_some _ Hfac) as [h Hl].
  unfold report_of, counts_of.
  rewrite (column_out df d out c_BL_CAT H) by (vm_compute; tauto).
  rewrite (column_out df d out c_ImporterShort H) by (vm_compute; tauto).
  cbn [mbind option_bind]. rewrite Hfp. fold dd. rewrite Hsort. cbn [mbind option_bind].
  eexists _, h. split; [reflexivity|]. cbn [fac_links]. split; [exact Hl|].
  unfold build_messages, report_of, counts_of.
  rewrite (column_out df d out c_BL_CAT H) by (vm_compute; tauto).
  rewrite (column_out df d out c_ImporterShort H) by (vm_compute; tauto).
  cbn [mbind option_bind]. rewrite Hfp. fold dd. rewrite Hsort. cbn [mbind option_bind fac_links].
  rewrite Hl. reflexivity.
Qed.

(** On a CSV whose Ticket Names and Urls are strings or missing, the
    page fails only where [load_and_filter] does: [build_messages] and
    the KPI cards always succeed on the filtered table ([html.escape]
    and [sort_values] never meet a value that is not a [str]). *)
Theorem page_run_defined (raw_df : frame) (d : date) :
  Forall (fun r => str_or_na (row_get r c_Ticket_Name) = true /\
                   str_or_na (row_get r c_Url) = true) (rows raw_df) ->
  (page_run raw_df d = None <-> load_and_filter raw_df d = None).
Proof.
  intros Hs. split.
  - intros Hn. destruct (load_and_filter raw_df d) as [out|] eqn:Hl; [|reflexivity]. exfalso.
    destruct (build_messages_some raw_df d out Hl Hs) as (r & h & _ & _ & Hb).
    unfold page_run in Hn. rewrite Hl in Hn. cbn [mbind option_bind] in Hn.
    unfold page_kpis in Hn.
    rewrite (column_out raw_df d out c_BL_CAT Hl) in Hn by (vm_compute; tauto).
    cbn [mbind option_bind] in Hn. rewrite Hb in Hn. discriminate Hn.
  - intros Hn. unfold page_run. rewrite Hn. reflexivity.
Qed.

Lemma page_run_defined_witness :
  Forall (fun r => str_or_na (row_get r c_Ticket_Name) = true /\
                   str_or_na (row_get r c_Url) = true) (rows sample_links) /\
  (page_run sample_links (ymd2ord 2025 7 16) = None <->
   load_and_filter sample_links (ymd2ord 2025 7 16) = None).
Proof.
  assert (Hs : Forall (fun r => str_or_na (row_get r c_Ticket_Name) = true /\
                                str_or_na (row_get r c_Url) = true) (rows sample_links))
    by (vm_compute; repeat constructor).
  split; [exact Hs|]. exact (page_run_defined sample_links (ymd2ord 2025 7 16) Hs).
Defined.
